(** * AudioPlot (myapp.py): transport controller, playback worker and position relay

    A shallow embedding of [src/myapp.py].  The Tk application object is a
    record [App]; every method of the class is a computation in a small
    state-and-exception monad [M] over that record, written statement by
    statement after the Python source.  The threads started by the
    application are part of the state, and the audio callback and the
    scheduled [after] callback are events of a step function.

    Modelling conventions:
    - seconds and samples are exact rationals ([Q]) in place of binary
      floating point; Python's [==] and [<=] on them are [Qeq] and [Qle];
      no statement below relies on a quotient multiplied back being exact,
      which it is here and is not in floating point;
    - [threading.Event] objects are booleans, shared between the window and
      every worker thread, as in the source;
    - widget layout, menus, the file-name label, the text formatting of the
      labels, figure styling, the pixel contents of the canvas and [on_close]
      are left out; what [redraw] leaves in the two animated lines is kept. *)

From Stdlib Require Import ZArith QArith Qround Qabs List String Bool Lia.
Import ListNotations.

Local Open Scope Z_scope.

(** ** numpy and builtins *)

(** [sf.read(..., always_2d=True)] returns an array of shape (frames, channels):
    a list of frames, each a list of samples. *)
Definition ndarray := list (list Q).

Definition len {A : Type} (l : list A) : Z := Z.of_nat (List.length l).

(** Truth value of a number. *)
Definition truthy (x : Q) : bool := negb (Qeq_bool x 0).

(** [ndarray.any()]: some element is non-zero. *)
Definition any (d : ndarray) : bool := existsb (existsb truthy) d.

(** [np.linspace(start, stop, num, endpoint=False)]. *)
Definition linspace (start stop : Q) (num : nat) : list Q :=
  let step := ((stop - start) / inject_Z (Z.of_nat num))%Q in
  map (fun i => (inject_Z (Z.of_nat i) * step + start)%Q) (seq 0 num).

(** [int(x)]: truncation toward zero. *)
Definition int (x : Q) : Z := Z.quot (Qnum x) (Zpos (Qden x)).


(** [l[0]] and [l[-1]]. *)
Definition first {A : Type} (l : list A) : option A := hd_error l.
Definition last_item {A : Type} (l : list A) : option A := hd_error (rev l).

(** Replace the element at index [i], if there is one. *)
Fixpoint set_nth {A : Type} (i : nat) (x : A) (l : list A) : list A :=
  match l, i with
  | [], _ => []
  | _ :: t, O => x :: t
  | h :: t, S j => h :: set_nth j x t
  end.

(** ** queue.LifoQueue *)

Module LifoQueue.

Record t := mk { maxsize : Z; items : list Q }.

Definition qsize (q : t) : Z := len (items q).

(** [full()]: 0 < maxsize <= qsize. *)
Definition full (q : t) : bool := (0 <? maxsize q) && (maxsize q <=? qsize q).

Definition empty (q : t) : bool := qsize q =? 0.

(** [q.queue.clear()]. *)
Definition clear (q : t) : t := mk (maxsize q) [].

(** [put(v)] appends; on a full queue it blocks until a consumer takes an
    item: [None]. *)
Definition put (v : Q) (q : t) : option t :=
  if (0 <? maxsize q) && (maxsize q <=? qsize q) then None
  else Some (mk (maxsize q) (items q ++ [v])).

(** [get()] pops the most recent item; on an empty queue it blocks: [None]. *)
Definition get (q : t) : option (Q * t) :=
  match rev (items q) with
  | [] => None
  | v :: r => Some (v, mk (maxsize q) (rev r))
  end.

End LifoQueue.

(** ** Data classes *)

Inductive MouseButton := LEFT | MIDDLE | RIGHT | BACK | FORWARD.

Record MouseEvent := { xdata : option Q; ydata : option Q; button : MouseButton }.

(** [SoundPosition]: current position, last position, marker position. *)
Record SoundPosition := { pos : Q; last_pos : Q; marker_pos : option Q }.

(** ** AsyncPlay

    The fields set by [__init__]; [queue] and [stop_event] are the window's
    own objects and live in [App].  [alive] is [Thread.is_alive()];
    [streaming] says that the output stream is open and still calls
    [callback]. *)
Record AsyncPlay := {
  current_frame : Z;
  t_data : ndarray;
  t_fs : Z;
  curr_time : Q;
  alive : bool;
  streaming : bool
}.

(** [AsyncPlay.__init__(data, fs, queue, stop_event, pos)] followed by [start()]. *)
Definition AsyncPlay_start (d : ndarray) (fs : Z) (p : Q) : AsyncPlay :=
  {| current_frame := int (p * inject_Z fs);
     t_data := d;
     t_fs := fs;
     curr_time := 0;
     alive := true;
     streaming := true |}.

(** ** The application window *)

Record App := {
  pause_event : bool;
  stop_event : bool;
  queue : LifoQueue.t;
  sound : SoundPosition;
  (* attributes created by extract_audio_data *)
  data : option ndarray;
  samplerate : option Z;
  (* attributes created by plot_data: the time axis, and the x data of
     anim_line and mark_line (with the canvas and its saved background) *)
  time_axis : option (list Q);
  lines : option (Q * option Q);
  (* every AsyncPlay started so far, newest first: play_thread is the head *)
  threads : list AsyncPlay;
  (* update_plot callbacks scheduled with after() and not yet run *)
  after_pending : nat;
  (* the numbers shown by label_time and label_marker *)
  label_time : Q;
  label_marker : option Q;
  (* True when the button's state is "normal" *)
  play_button : bool;
  pause_button : bool;
  stop_button : bool;
  (* the Time shown by each showinfo dialog, newest first *)
  dialogs : list Q
}.

(** [App.__init__]. *)
Definition init : App :=
  {| pause_event := false;
     stop_event := false;
     queue := LifoQueue.mk 1 [];
     sound := {| pos := 0; last_pos := 0; marker_pos := None |};
     data := None;
     samplerate := None;
     time_axis := None;
     lines := None;
     threads := [];
     after_pending := O;
     label_time := 0;
     label_marker := None;
     play_button := false;
     pause_button := false;
     stop_button := false;
     dialogs := [] |}.

(** ** The monad of methods: state and Python exceptions *)

Inductive exn :=
| AttributeError      (* an attribute read before any file was loaded *)
| IndexError          (* indexing an empty time axis *)
| ZeroDivisionError
| SoundFileError      (* sf.read could not read or decode the file *)
| Blocked.            (* a blocking queue operation that cannot proceed *)

Inductive Res (A : Type) :=
| Ok (a : A) (st : App)
| Raise (e : exn) (st : App).
Arguments Ok {A} a st.
Arguments Raise {A} e st.

Definition M (A : Type) := App -> Res A.

Definition ret {A : Type} (a : A) : M A := fun st => Ok a st.

Definition bind {A B : Type} (m : M A) (k : A -> M B) : M B :=
  fun st => match m st with
            | Ok a st' => k a st'
            | Raise e st' => Raise e st'
            end.

Notation "x <- m ;; k" := (bind m (fun x => k))
  (at level 61, m at next level, right associativity).
Notation "m ;; k" := (bind m (fun _ => k))
  (at level 61, right associativity).

Definition raise {A : Type} (e : exn) : M A := fun st => Raise e st.
Definition gets {A : Type} (f : App -> A) : M A := fun st => Ok (f st) st.
Definition modify (f : App -> App) : M unit := fun st => Ok tt (f st).

(** Read an attribute that exists only after a file was loaded. *)
Definition attr {A : Type} (f : App -> option A) : M A :=
  fun st => match f st with
            | Some a => Ok a st
            | None => Raise AttributeError st
            end.

Definition index {A : Type} (o : option A) : M A :=
  match o with
  | Some a => ret a
  | None => raise IndexError
  end.

(** The state a call leaves behind, whether it returned or raised. *)
Definition state_of {A : Type} (r : Res A) : App :=
  match r with
  | Ok _ st => st
  | Raise _ st => st
  end.

Definition returned {A : Type} (r : Res A) : bool :=
  match r with
  | Ok _ _ => true
  | Raise _ _ => false
  end.

(** ** Attribute assignment *)

Definition set_pause_event (b : bool) (st : App) : App :=
  {| pause_event := b; stop_event := stop_event st; queue := queue st;
     sound := sound st; data := data st; samplerate := samplerate st;
     time_axis := time_axis st; lines := lines st; threads := threads st;
     after_pending := after_pending st; label_time := label_time st;
     label_marker := label_marker st; play_button := play_button st;
     pause_button := pause_button st; stop_button := stop_button st;
     dialogs := dialogs st |}.

Definition set_stop_event (b : bool) (st : App) : App :=
  {| pause_event := pause_event st; stop_event := b; queue := queue st;
     sound := sound st; data := data st; samplerate := samplerate st;
     time_axis := time_axis st; lines := lines st; threads := threads st;
     after_pending := after_pending st; label_time := label_time st;
     label_marker := label_marker st; play_button := play_button st;
     pause_button := pause_button st; stop_button := stop_button st;
     dialogs := dialogs st |}.

Definition set_queue (q : LifoQueue.t) (st : App) : App :=
  {| pause_event := pause_event st; stop_event := stop_event st; queue := q;
     sound := sound st; data := data st; samplerate := samplerate st;
     time_axis := time_axis st; lines := lines st; threads := threads st;
     after_pending := after_pending st; label_time := label_time st;
     label_marker := label_marker st; play_button := play_button st;
     pause_button := pause_button st; stop_button := stop_button st;
     dialogs := dialogs st |}.

Definition set_sound (s : SoundPosition) (st : App) : App :=
  {| pause_event := pause_event st; stop_event := stop_event st; queue := queue st;
     sound := s; data := data st; samplerate := samplerate st;
     time_axis := time_axis st; lines := lines st; threads := threads st;
     after_pending := after_pending st; label_time := label_time st;
     label_marker := label_marker st; play_button := play_button st;
     pause_button := pause_button st; stop_button := stop_button st;
     dialogs := dialogs st |}.

Definition set_data (d : ndarray) (st : App) : App :=
  {| pause_event := pause_event st; stop_event := stop_event st; queue := queue st;
     sound := sound st; data := Some d; samplerate := samplerate st;
     time_axis := time_axis st; lines := lines st; threads := threads st;
     after_pending := after_pending st; label_time := label_time st;
     label_marker := label_marker st; play_button := play_button st;
     pause_button := pause_button st; stop_button := stop_button st;
     dialogs := dialogs st |}.

Definition set_samplerate (fs : Z) (st : App) : App :=
  {| pause_event := pause_event st; stop_event := stop_event st; queue := queue st;
     sound := sound st; data := data st; samplerate := Some fs;
     time_axis := time_axis st; lines := lines st; threads := threads st;
     after_pending := after_pending st; label_time := label_time st;
     label_marker := label_marker st; play_button := play_button st;
     pause_button := pause_button st; stop_button := stop_button st;
     dialogs := dialogs st |}.

Definition set_time_axis (t : list Q) (st : App) : App :=
  {| pause_event := pause_event st; stop_event := stop_event st; queue := queue st;
     sound := sound st; data := data st; samplerate := samplerate st;
     time_axis := Some t; lines := lines st; threads := threads st;
     after_pending := after_pending st; label_time := label_time st;
     label_marker := label_marker st; play_button := play_button st;
     pause_button := pause_button st; stop_button := stop_button st;
     dialogs := dialogs st |}.

Definition set_lines (l : Q * option Q) (st : App) : App :=
  {| pause_event := pause_event st; stop_event := stop_event st; queue := queue st;
     sound := sound st; data := data st; samplerate := samplerate st;
     time_axis := time_axis st; lines := Some l; threads := threads st;
     after_pending := after_pending st; label_time := label_time st;
     label_marker := label_marker st; play_button := play_button st;
     pause_button := pause_button st; stop_button := stop_button st;
     dialogs := dialogs st |}.

Definition set_threads (ts : list AsyncPlay) (st : App) : App :=
  {| pause_event := pause_event st; stop_event := stop_event st; queue := queue st;
     sound := sound st; data := data st; samplerate := samplerate st;
     time_axis := time_axis st; lines := lines st; threads := ts;
     after_pending := after_pending st; label_time := label_time st;
     label_marker := label_marker st; play_button := play_button st;
     pause_button := pause_button st; stop_button := stop_button st;
     dialogs := dialogs st |}.

Definition set_after_pending (n : nat) (st : App) : App :=
  {| pause_event := pause_event st; stop_event := stop_event st; queue := queue st;
     sound := sound st; data := data st; samplerate := samplerate st;
     time_axis := time_axis st; lines := lines st; threads := threads st;
     after_pending := n; label_time := label_time st;
     label_marker := label_marker st; play_button := play_button st;
     pause_button := pause_button st; stop_button := stop_button st;
     dialogs := dialogs st |}.

Definition set_label_time (x : Q) (st : App) : App :=
  {| pause_event := pause_event st; stop_event := stop_event st; queue := queue st;
     sound := sound st; data := data st; samplerate := samplerate st;
     time_axis := time_axis st; lines := lines st; threads := threads st;
     after_pending := after_pending st; label_time := x;
     label_marker := label_marker st; play_button := play_button st;
     pause_button := pause_button st; stop_button := stop_button st;
     dialogs := dialogs st |}.

Definition set_label_marker (x : option Q) (st : App) : App :=
  {| pause_event := pause_event st; stop_event := stop_event st; queue := queue st;
     sound := sound st; data := data st; samplerate := samplerate st;
     time_axis := time_axis st; lines := lines st; threads := threads st;
     after_pending := after_pending st; label_time := label_time st;
     label_marker := x; play_button := play_button st;
     pause_button := pause_button st; stop_button := stop_button st;
     dialogs := dialogs st |}.

Definition set_play_button (b : bool) (st : App) : App :=
  {| pause_event := pause_event st; stop_event := stop_event st; queue := queue st;
     sound := sound st; data := data st; samplerate := samplerate st;
     time_axis := time_axis st; lines := lines st; threads := threads st;
     after_pending := after_pending st; label_time := label_time st;
     label_marker := label_marker st; play_button := b;
     pause_button := pause_button st; stop_button := stop_button st;
     dialogs := dialogs st |}.

Definition set_pause_button (b : bool) (st : App) : App :=
  {| pause_event := pause_event st; stop_event := stop_event st; queue := queue st;
     sound := sound st; data := data st; samplerate := samplerate st;
     time_axis := time_axis st; lines := lines st; threads := threads st;
     after_pending := after_pending st; label_time := label_time st;
     label_marker := label_marker st; play_button := play_button st;
     pause_button := b; stop_button := stop_button st;
     dialogs := dialogs st |}.

Definition set_stop_button (b : bool) (st : App) : App :=
  {| pause_event := pause_event st; stop_event := stop_event st; queue := queue st;
     sound := sound st; data := data st; samplerate := samplerate st;
     time_axis := time_axis st; lines := lines st; threads := threads st;
     after_pending := after_pending st; label_time := label_time st;
     label_marker := label_marker st; play_button := play_button st;
     pause_button := pause_button st; stop_button := b;
     dialogs := dialogs st |}.

Definition set_dialogs (l : list Q) (st : App) : App :=
  {| pause_event := pause_event st; stop_event := stop_event st; queue := queue st;
     sound := sound st; data := data st; samplerate := samplerate st;
     time_axis := time_axis st; lines := lines st; threads := threads st;
     after_pending := after_pending st; label_time := label_time st;
     label_marker := label_marker st; play_button := play_button st;
     pause_button := pause_button st; stop_button := stop_button st;
     dialogs := l |}.

Definition set_pos (x : Q) (st : App) : App :=
  set_sound {| pos := x; last_pos := last_pos (sound st);
               marker_pos := marker_pos (sound st) |} st.

Definition set_last_pos (x : Q) (st : App) : App :=
  set_sound {| pos := pos (sound st); last_pos := x;
               marker_pos := marker_pos (sound st) |} st.

Definition set_marker_pos (x : option Q) (st : App) : App :=
  set_sound {| pos := pos (sound st); last_pos := last_pos (sound st);
               marker_pos := x |} st.

(** [self.play_thread], when the attribute exists. *)
Definition play_thread (st : App) : option AsyncPlay := hd_error (threads st).

(** [self.play_thread = AsyncPlay(...)] and [self.play_thread.start()]. *)
Definition start_thread (w : AsyncPlay) (st : App) : App :=
  set_threads (w :: threads st) st.

Definition update_thread (i : nat) (w : AsyncPlay) (st : App) : App :=
  set_threads (set_nth i w (threads st)) st.

(** ** Plot methods *)

(** [redraw(figure, figure_canvas, bg, artists, ax, pos)]: restores the saved
    background and moves the two animated lines to [pos[0]] and [pos[1]].
    The canvas, the background and the lines exist once [plot_data] has run. *)
Definition redraw (p : Q) (m : option Q) : M unit :=
  _ <- attr lines ;;
  modify (set_lines (p, m)).

(** [plot_data()]. *)
Definition plot_data : M unit :=
  d <- attr data ;;
  fs <- attr samplerate ;;
  let n_data := len d in
  (if fs =? 0 then raise ZeroDivisionError else ret tt) ;;
  modify (set_time_axis
            (linspace 0 (inject_Z n_data / inject_Z fs) (List.length d))) ;;
  (* axhline(y=0, xmin=time_axis[0], xmax=time_axis[-1]) *)
  t <- attr time_axis ;;
  _ <- index (first t) ;;
  _ <- index (last_item t) ;;
  (* anim_line and mark_line are created at x=0 and drawn on a new canvas *)
  modify (set_lines (0%Q, Some 0%Q)).

(** [update_plot(last_pos)]. *)
Definition update_plot (last_pos' : Q) : M unit :=
  (* current sound data position becomes last position *)
  modify (set_last_pos last_pos') ;;
  stopped <- gets stop_event ;;
  (if negb stopped then
     (* update plot while playing *)
     paused <- gets pause_event ;;
     (if negb paused then
        q <- gets queue ;;
        (if negb (LifoQueue.empty q) then
           match LifoQueue.get q with
           | Some (v, q') => modify (set_queue q') ;; modify (set_pos v)
           | None => raise Blocked
           end
         else
           lp <- gets (fun st => last_pos (sound st)) ;;
           modify (set_pos lp)) ;;
        s <- gets sound ;;
        redraw (pos s) (marker_pos s) ;;
        p <- gets (fun st => pos (sound st)) ;;
        modify (set_label_time p)
      else ret tt) ;;
     (* self.after(20, lambda: self.update_plot(self.sound.pos)) *)
     modify (fun st => set_after_pending (S (after_pending st)) st)
   else
     (* update when not playing *)
     paused <- gets pause_event ;;
     (if negb paused then
        t <- attr time_axis ;;
        t0 <- index (first t) ;;
        modify (set_pos t0) ;;
        t <- attr time_axis ;;
        t0 <- index (first t) ;;
        modify (set_last_pos t0) ;;
        p <- gets (fun st => pos (sound st)) ;;
        modify (set_label_time p)
      else ret tt) ;;
     s <- gets sound ;;
     redraw (pos s) (marker_pos s) ;;
     modify (set_play_button true)) ;;
  (* make sure that stop event is set if the play thread is not active *)
  play_thread_active <- gets (fun st => match play_thread st with
                                        | Some w => alive w
                                        | None => false
                                        end) ;;
  if negb play_thread_active then modify (set_stop_event true) else ret tt.

(** The callback scheduled by [after]: [lambda: self.update_plot(self.sound.pos)]. *)
Definition tick : M unit :=
  modify (fun st => set_after_pending (Nat.pred (after_pending st)) st) ;;
  p <- gets (fun st => pos (sound st)) ;;
  update_plot p.

(** ** Audio control buttons *)

(** [self.play_thread = AsyncPlay(self.data, self.samplerate, self.queue,
    self.stop_event, self.sound.last_pos)] and [self.play_thread.start()]. *)
Definition spawn : M unit :=
  d <- attr data ;;
  fs <- attr samplerate ;;
  lp <- gets (fun st => last_pos (sound st)) ;;
  modify (start_thread (AsyncPlay_start d fs lp)).

(** [click_play()]. *)
Definition click_play : M unit :=
  modify (fun st => set_queue (LifoQueue.clear (queue st)) st) ;;
  modify (set_stop_event false) ;;
  modify (set_pause_event false) ;;
  spawn ;;
  modify (set_play_button false) ;;
  lp <- gets (fun st => last_pos (sound st)) ;;
  update_plot lp.

(** [click_pause()]. *)
Definition click_pause : M unit :=
  paused <- gets pause_event ;;
  if paused then
    modify (set_pause_event false) ;;
    modify (set_stop_event false) ;;
    spawn ;;
    lp <- gets (fun st => last_pos (sound st)) ;;
    update_plot lp
  else
    modify (set_pause_event true) ;;
    modify (set_stop_event true).

(** [click_stop()]. *)
Definition click_stop : M unit :=
  modify (set_stop_event true) ;;
  modify (set_pause_event false) ;;
  modify (set_last_pos 0%Q) ;;
  lp <- gets (fun st => last_pos (sound st)) ;;
  update_plot lp.

(** ** Sound and data events *)

(** [self.time_axis[0] <= x_cursor <= self.time_axis[-1]]. *)
Definition in_time_axis (x_cursor : Q) : M bool :=
  t <- attr time_axis ;;
  lo <- index (first t) ;;
  if Qle_bool lo x_cursor then
    t <- attr time_axis ;;
    hi <- index (last_item t) ;;
    ret (Qle_bool x_cursor hi)
  else ret false.

(** [on_mouse_click(event)]. *)
Definition on_mouse_click (event : MouseEvent) : M unit :=
  match xdata event, ydata event with
  | Some x_cursor, Some y_cursor =>
    match button event with
    | LEFT =>
      (* left button to change the position of audio data *)
      inside <- in_time_axis x_cursor ;;
      lp <- gets (fun st => last_pos (sound st)) ;;
      modify (set_last_pos (if inside then x_cursor else lp))
    | RIGHT =>
      (* right button to change the position of marker *)
      inside <- in_time_axis x_cursor ;;
      lp <- gets (fun st => last_pos (sound st)) ;;
      modify (set_marker_pos (Some (if inside then x_cursor else lp))) ;;
      _ <- attr lines ;;
      m <- gets (fun st => marker_pos (sound st)) ;;
      match m with
      | Some v => modify (set_label_marker (Some v))
      | None => ret tt
      end
    | _ => ret tt
    end ;;
    modify (set_pause_event true) ;;
    modify (set_stop_event true) ;;
    (* redraw the plot to show the current audio position and the marker *)
    s <- gets sound ;;
    redraw (last_pos s) (marker_pos s) ;;
    lp <- gets (fun st => last_pos (sound st)) ;;
    modify (set_label_time lp)
  | _, _ => ret tt
  end.

(** What [sf.read(file_path, always_2d=True)] does: it raises, or returns the
    samples and the sample rate. *)
Inductive SfRead :=
| SfRaise
| SfData (d : ndarray) (fs : Z).

Definition set_buttons_state (b : bool) : M unit :=
  modify (set_play_button b) ;;
  modify (set_pause_button b) ;;
  modify (set_stop_button b).

(** [extract_audio_data(file_path)], over the file system [sf_read]. *)
Definition extract_audio_data (sf_read : string -> SfRead) (file_path : string)
  : M unit :=
  if negb (String.eqb file_path EmptyString) then
    match sf_read file_path with
    | SfRaise => raise SoundFileError
    | SfData d fs =>
      modify (set_data d) ;;
      modify (set_samplerate fs) ;;
      d <- attr data ;;
      fs <- attr samplerate ;;
      (* start updating window and plotting if data is OK *)
      if any d && negb (fs =? 0) then
        modify (set_stop_event false) ;;
        modify (set_pause_event false) ;;
        (* showinfo(..., Time: len(self.data) / self.samplerate) *)
        modify (fun st => set_dialogs
                            ((inject_Z (len d) / inject_Z fs)%Q :: dialogs st) st) ;;
        modify (set_marker_pos None) ;;
        (* self.sound.pos = self.sound.last_pos = 0 *)
        modify (set_pos 0%Q) ;;
        modify (set_last_pos 0%Q) ;;
        plot_data ;;
        set_buttons_state true ;;
        lp <- gets (fun st => last_pos (sound st)) ;;
        update_plot lp
      else ret tt
    end
  else ret tt.

(** [open_file()], the dialog having returned [file_path] (empty when the
    dialog is cancelled). *)
Definition open_file (sf_read : string -> SfRead) (file_path : string) : M unit :=
  if negb (String.eqb file_path EmptyString) then
    extract_audio_data sf_read file_path
  else ret tt.

(** ** The playback thread *)

Definition with_frame (w : AsyncPlay) (f : Z) : AsyncPlay :=
  {| current_frame := f; t_data := t_data w; t_fs := t_fs w;
     curr_time := curr_time w; alive := alive w; streaming := streaming w |}.

Definition with_time (w : AsyncPlay) (t : Q) : AsyncPlay :=
  {| current_frame := current_frame w; t_data := t_data w; t_fs := t_fs w;
     curr_time := t; alive := alive w; streaming := streaming w |}.

Definition with_status (w : AsyncPlay) (a s : bool) : AsyncPlay :=
  {| current_frame := current_frame w; t_data := t_data w; t_fs := t_fs w;
     curr_time := curr_time w; alive := a; streaming := s |}.

(** The thread at index [i] of [threads]. *)
Definition thread (i : nat) : M AsyncPlay :=
  attr (fun st => nth_error (threads st) i).

(** [self.queue.put(v)]. *)
Definition queue_put (v : Q) : M unit :=
  q <- gets queue ;;
  match LifoQueue.put v q with
  | Some q' => modify (set_queue q')
  | None => raise Blocked
  end.

(** [callback(outdata, frames, time, status)] of the thread at index [i].
    The samples copied to [outdata] are not kept.  [raise sd.CallbackStop()]
    ends the stream, whose [finished_callback] is [stop_event.set]. *)
Definition callback (i : nat) (frames : Z) : M unit :=
  self <- thread i ;;
  let chunksize := Z.min (len (t_data self) - current_frame self) frames in
  if chunksize <? frames then
    modify (update_thread i (with_status self (alive self) false)) ;;
    modify (set_stop_event true)
  else
    q <- gets queue ;;
    (if LifoQueue.full q then
       modify (fun st => set_queue (LifoQueue.clear (queue st)) st)
     else ret tt) ;;
    (* put current time in queue so that plot can be updated *)
    (if t_fs self =? 0 then raise ZeroDivisionError else ret tt) ;;
    modify (update_thread i
              (with_time self (inject_Z (current_frame self) / inject_Z (t_fs self))%Q)) ;;
    self <- thread i ;;
    queue_put (curr_time self) ;;
    self <- thread i ;;
    modify (update_thread i (with_frame self (current_frame self + chunksize))).

(** The thread at index [i] leaves [run]: [stop_event.wait()] has returned and
    the stream is closed, or an exception was caught.  [finished] says whether
    the stream's [finished_callback] ran on the way out. *)
Definition thread_exit (i : nat) (finished : bool) : M unit :=
  self <- thread i ;;
  modify (update_thread i (with_status self false false)) ;;
  if finished then modify (set_stop_event true) else ret tt.

(** ** Events of the running application *)

Inductive Event :=
| OpenFile (sf_read : string -> SfRead) (file_path : string)
| ClickPlay
| ClickPause
| ClickStop
| MouseClick (event : MouseEvent)
| Tick
| Callback (i : nat) (frames : Z)
| ThreadExit (i : nat) (finished : bool).

Definition handler (e : Event) : M unit :=
  match e with
  | OpenFile sf_read file_path => open_file sf_read file_path
  | ClickPlay => click_play
  | ClickPause => click_pause
  | ClickStop => click_stop
  | MouseClick event => on_mouse_click event
  | Tick => tick
  | Callback i frames => callback i frames
  | ThreadExit i finished => thread_exit i finished
  end.

(** An event can happen: the button is enabled, the canvas that reports
    clicks exists, a callback is scheduled, the thread is running. *)
Definition enabled (e : Event) (st : App) : bool :=
  match e with
  | OpenFile _ _ => true
  | ClickPlay => play_button st
  | ClickPause => pause_button st
  | ClickStop => stop_button st
  | MouseClick _ => match lines st with Some _ => true | None => false end
  | Tick => negb (Nat.eqb (after_pending st) 0)
  | Callback i _ => match nth_error (threads st) i with
                    | Some w => alive w && streaming w
                    | None => false
                    end
  | ThreadExit i _ => match nth_error (threads st) i with
                      | Some w => alive w
                      | None => false
                      end
  end.

(** One event.  An exception in a handler is reported and the application
    goes on from the state the handler left. *)
Definition step (st : App) (e : Event) : option App :=
  if enabled e st then Some (state_of (handler e st)) else None.

Fixpoint run (st : App) (es : list Event) : option App :=
  match es with
  | [] => Some st
  | e :: es' => match step st e with
                | Some st' => run st' es'
                | None => None
                end
  end.

Definition reachable (st : App) : Prop := exists es, run init es = Some st.

(** ** Derived notions used by the statements *)

(** The length of the loaded sound in seconds. *)
Definition duration (d : ndarray) (fs : Z) : Q := (inject_Z (len d) / inject_Z fs)%Q.

(** A worker is running: the newest thread is alive and still blocked in
    [stop_event.wait()] with its stream open, i.e. the stop event is clear. *)
Definition worker_running (st : App) : bool :=
  match play_thread st with
  | Some w => alive w && negb (stop_event st)
  | None => false
  end.

(** A plot exists and its time axis starts at 0, as [plot_data] leaves it. *)
Definition plotted (st : App) : Prop :=
  exists t0 ts l,
    time_axis st = Some (t0 :: ts) /\ (t0 == 0)%Q /\ lines st = Some l.

(** The transport state as the two events show it. *)
Inductive TransportState := Playing | Paused | Stopped.

Definition transport (st : App) : TransportState :=
  if stop_event st then (if pause_event st then Paused else Stopped)
  else Playing.

(** The relay holds at most one value: a [LifoQueue(maxsize = 1)]. *)
Definition relay_inv (st : App) : Prop :=
  LifoQueue.maxsize (queue st) = 1
  /\ (List.length (LifoQueue.items (queue st)) <= 1)%nat.

(** ** A small session used to exercise the statements

    A mono file of six frames at 2 Hz (3.0 s), a silent file of four frames
    at 2 Hz (2.0 s), a file with no frames, and an unreadable one. *)

Definition demo_data : ndarray :=
  [[1 # 2]; [0]; [- (1 # 4)]; [1 # 8]; [0]; [0]]%Q.

Definition demo_files (file_path : string) : SfRead :=
  if String.eqb file_path "tone.wav" then SfData demo_data 2
  else if String.eqb file_path "silence.wav" then SfData [[0]; [0]; [0]; [0]]%Q 2
  else if String.eqb file_path "empty.wav" then SfData [] 8000
  else SfRaise.

Definition after_events (es : list Event) : App :=
  match run init es with
  | Some st => st
  | None => init
  end.

Definition left_click (x : Q) : MouseEvent :=
  {| xdata := Some x; ydata := Some 0%Q; button := LEFT |}.

Definition right_click (x : Q) : MouseEvent :=
  {| xdata := Some x; ydata := Some 0%Q; button := RIGHT |}.

(** The file is loaded and the scheduled redraw has run: Stopped. *)
Definition demo_loaded : App :=
  after_events [OpenFile demo_files "tone.wav"; Tick].

(** Play from 1.0 s; the audio device has asked for two frames and the
    redraw has shown the position. *)
Definition demo_playing : App :=
  after_events [OpenFile demo_files "tone.wav"; Tick;
                MouseClick (left_click 1); ClickPlay;
                Callback 0 2; Tick; Callback 0 1].

(** Two seconds of silence at 44100 Hz, mono. *)
Definition silence : ndarray := repeat [0%Q] (N.to_nat 88200).

Definition silence_file (file_path : string) : SfRead := SfData silence 44100.

(** The 3.0 s file is loaded, the marker is at 1.2 s and the last position
    at 0.4 s. *)
Definition demo_marked : App :=
  after_events [OpenFile demo_files "tone.wav"; Tick;
                MouseClick (right_click (6 # 5));
                MouseClick (left_click (2 # 5))].

(** Before the first successful load there is no plot and no button is
    enabled; afterwards there is a plot. *)
Definition session_inv (st : App) : Prop :=
  plotted st
  \/ (lines st = None /\ play_button st = false
      /\ pause_button st = false /\ stop_button st = false).

(** [self.play_thread.is_alive() if hasattr(self, 'play_thread') else False]. *)
Definition play_thread_active (st : App) : bool :=
  match play_thread st with
  | Some w => alive w
  | None => false
  end.

(** Stop has been pressed while playing; the redraw scheduled before is
    still to run. *)
Definition demo_stopping : App :=
  after_events [OpenFile demo_files "tone.wav"; Tick; ClickPlay; ClickStop].

(** The playback thread has died without its stream reporting the end. *)
Definition demo_dead : App :=
  after_events [OpenFile demo_files "tone.wav"; Tick; ClickPlay;
                ThreadExit 0 false].

(** The window as [extract_audio_data] has prepared it when it calls
    [update_plot] at the end of a successful load. *)
Definition load_prepared (d : ndarray) (fs : Z) (st : App) : App :=
  set_stop_button true
    (set_pause_button true
       (set_play_button true
          (set_lines (0%Q, Some 0%Q)
             (set_time_axis (linspace 0 (duration d fs) (List.length d))
                (set_last_pos 0%Q
                   (set_pos 0%Q
                      (set_marker_pos None
                         (set_dialogs (duration d fs :: dialogs st)
                            (set_pause_event false
                               (set_stop_event false
                                  (set_samplerate fs (set_data d st)))))))))))).

(** Paused at 1.0 s, after the redraw that follows the Pause; the value the
    worker published last is still in the relay. *)
Definition demo_paused : App :=
  after_events [OpenFile demo_files "tone.wav"; Tick;
                MouseClick (left_click 1); ClickPlay;
                Callback 0 2; Tick; Callback 0 1; ClickPause; Tick].

(** Once a file is plotted, the window keeps its data and sample rate, and a
    redraw is scheduled whenever the stop event is clear. *)
Definition loop_inv (st : App) : Prop :=
  relay_inv st
  /\ ((lines st = None /\ play_button st = false
       /\ pause_button st = false /\ stop_button st = false)
      \/ (plotted st
          /\ data st <> None
          /\ samplerate st <> None
          /\ (stop_event st = false -> after_pending st <> O))).

(** ** What the callback writes to the device

    [callback] above keeps the controller's side of the audio callback; the
    samples it copies are described here.  [a[i:j]] is modelled for
    [0 <= i <= j]. *)

Definition slice {A : Type} (a : list A) (i j : Z) : list A :=
  firstn (Z.to_nat (j - i)) (skipn (Z.to_nat i) a).

(** A row of the output buffer set to 0. *)
Definition zero_frame (row : list Q) : list Q := map (fun _ => 0%Q) row.

(** The output buffer when [callback(outdata, frames, time, status)] returns
    or raises [CallbackStop]:
    [outdata[:chunksize] = self.data[current_frame:current_frame + chunksize]]
    and, when [chunksize < frames], [outdata[chunksize:] = 0].  The device
    hands in a buffer of [frames] rows.  A cursor before the start or past
    the end of the data gives negative indices, which are not modelled:
    [None]. *)
Definition callback_outdata (self : AsyncPlay) (outdata : ndarray) (frames : Z)
  : option ndarray :=
  let chunksize := Z.min (len (t_data self) - current_frame self) frames in
  if (0 <=? current_frame self) && (0 <=? chunksize) && (len outdata =? frames)
  then
    let copied :=
      slice (t_data self) (current_frame self) (current_frame self + chunksize)
      ++ skipn (Z.to_nat chunksize) outdata in
    Some (if chunksize <? frames
          then firstn (Z.to_nat chunksize) copied
               ++ map zero_frame (skipn (Z.to_nat chunksize) copied)
          else copied)
  else None.

(** The output stream of the thread at index [i]: the device calls
    [callback] with a buffer [buf] of [frames] rows, again and again while
    the thread is alive and its stream is open, at most [fuel] times.  The
    result is the sequence of buffers written and the final state. *)
Fixpoint stream_run (fuel : nat) (i : nat) (frames : Z) (buf : ndarray)
         (st : App) : list ndarray * App :=
  match fuel with
  | O => ([], st)
  | S fuel' =>
    match nth_error (threads st) i with
    | Some self =>
      if alive self && streaming self then
        match callback_outdata self buf frames with
        | Some out =>
          let (outs, st') :=
            stream_run fuel' i frames buf (state_of (callback i frames st)) in
          (out :: outs, st')
        | None => ([], st)
        end
      else ([], st)
    | None => ([], st)
    end
  end.

(** The events handled on the window's own thread once a plot exists: the
    three buttons, a click on the canvas and the scheduled redraw. *)
Definition ui_event (e : Event) : bool :=
  match e with
  | ClickPlay | ClickPause | ClickStop | MouseClick _ | Tick => true
  | _ => false
  end.

(** * Properties *)

(** ** Numbers *)

Lemma int_nonneg_floor (x : Q) : (0 <= x)%Q -> int x = Qfloor x.
Proof.
  destruct x as [n d]. unfold Qle, int, Qfloor. simpl. intros H.
  apply Z.quot_div_nonneg; lia.
Qed.

Lemma int_comp (x y : Q) : (x == y)%Q -> int x = int y.
Proof.
  destruct x as [a b], y as [c d]. unfold Qeq, int. simpl. intros H.
  rewrite <- (Z.quot_mul_cancel_r a (Zpos b) (Zpos d)) by lia.
  rewrite H.
  rewrite (Z.mul_comm (Zpos b) (Zpos d)).
  apply Z.quot_mul_cancel_r; lia.
Qed.

Lemma int_inject_Z (z : Z) : int (inject_Z z) = z.
Proof. unfold int. simpl. apply Z.quot_1_r. Qed.

(** ** The starting frame of a worker *)




(** ** Symbolic execution of methods *)

Ltac exec_methods :=
  cbv beta iota zeta delta
    [handler open_file extract_audio_data plot_data update_plot tick spawn
     click_play click_pause click_stop in_time_axis on_mouse_click
     set_buttons_state redraw thread queue_put callback thread_exit
     bind ret raise gets modify attr index state_of
     set_pause_event set_stop_event set_queue set_sound set_data
     set_samplerate set_time_axis set_lines set_threads set_after_pending
     set_label_time set_label_marker set_play_button set_pause_button
     set_stop_button set_dialogs set_pos set_last_pos set_marker_pos
     start_thread update_thread play_thread
     pause_event stop_event queue sound data samplerate time_axis lines
     threads after_pending label_time label_marker play_button pause_button
     stop_button dialogs pos last_pos marker_pos
     xdata ydata button negb andb hd_error].

(** Case analysis on the innermost scrutinee the goal is stuck on. *)
Ltac break_match :=
  match goal with
  | |- context [match ?x with _ => _ end] =>
    lazymatch x with
    | context [match _ with _ => _ end] => fail
    | _ => destruct x eqn:?
    end
  end.

(** Queue operations on a single-slot queue whose contents are known. *)
Lemma slot_empty_nil : LifoQueue.empty (LifoQueue.mk 1 []) = true.
Proof. reflexivity. Qed.

Lemma slot_empty_one (a : Q) : LifoQueue.empty (LifoQueue.mk 1 [a]) = false.
Proof. reflexivity. Qed.

Lemma slot_full_nil : LifoQueue.full (LifoQueue.mk 1 []) = false.
Proof. reflexivity. Qed.

Lemma slot_full_one (a : Q) : LifoQueue.full (LifoQueue.mk 1 [a]) = true.
Proof. reflexivity. Qed.

Lemma slot_clear (l : list Q) :
  LifoQueue.clear (LifoQueue.mk 1 l) = LifoQueue.mk 1 [].
Proof. reflexivity. Qed.

Lemma slot_get_nil : LifoQueue.get (LifoQueue.mk 1 []) = None.
Proof. reflexivity. Qed.

Lemma slot_get_one (a : Q) :
  LifoQueue.get (LifoQueue.mk 1 [a]) = Some (a, LifoQueue.mk 1 []).
Proof. reflexivity. Qed.

Lemma slot_put_nil (v : Q) :
  LifoQueue.put v (LifoQueue.mk 1 []) = Some (LifoQueue.mk 1 [v]).
Proof. reflexivity. Qed.

Lemma slot_put_one (v a : Q) : LifoQueue.put v (LifoQueue.mk 1 [a]) = None.
Proof. reflexivity. Qed.

Ltac eval_queue :=
  rewrite ?slot_empty_nil, ?slot_empty_one, ?slot_full_nil, ?slot_full_one,
    ?slot_clear, ?slot_get_nil, ?slot_get_one, ?slot_put_nil, ?slot_put_one.

Ltac exec := exec_methods; repeat (progress eval_queue; exec_methods).

(** ** The position relay *)

Lemma step_relay_inv (st st' : App) (e : Event) :
  relay_inv st -> step st e = Some st' -> relay_inv st'.
Proof.
  unfold step. destruct (enabled e st); [|discriminate].
  intros [Hm Hl] H. injection H as <-.
  destruct st as [pe se [mx it] [p lp mk] d fs ta ln th ap lt lm pb pab sb dl].
  simpl in Hm, Hl. subst mx. unfold relay_inv.
  destruct it as [|a [|b it]]; [| |simpl in Hl; lia].
  all: destruct e; exec; repeat (break_match; exec); simpl; auto.
Qed.



Lemma nth_error_set_nth {A : Type} (l : list A) :
  forall (i : nat) (x y : A),
    nth_error l i = Some y -> nth_error (set_nth i x l) i = Some x.
Proof.
  induction l as [|h t IH]; intros [|i] x y H; simpl in *; try discriminate.
  - reflexivity.
  - exact (IH i x y H).
Qed.





(** ** Clicks on the waveform *)

Lemma last_item_cons {A : Type} (a : A) (l : list A) :
  exists z, last_item (a :: l) = Some z.
Proof.
  unfold last_item. destruct (rev (a :: l)) as [|z r] eqn:E.
  - apply (f_equal (@List.length A)) in E. rewrite length_rev in E.
    discriminate E.
  - exists z. reflexivity.
Qed.

(** C10: a click inside the axes, with any button and at any time
    coordinate, returns with the pause event and the stop event both set. *)
Theorem click_sets_both_events (st : App) (event : MouseEvent) (x y : Q) :
  plotted st ->
  xdata event = Some x ->
  ydata event = Some y ->
  exists st',
    on_mouse_click event st = Ok tt st'
    /\ pause_event st' = true
    /\ stop_event st' = true.
Proof.
  intros [t0 [ts [l [Ht [_ Hl]]]]] Hx Hy.
  destruct event as [xd yd b]. simpl in Hx, Hy. subst xd yd.
  destruct (last_item_cons t0 ts) as [hi Hhi].
  destruct st as [pe se q [p lp mk] d fs ta ln th ap lt lm pb pab sb dl].
  simpl in Ht, Hl. subst ta ln.
  destruct b; exec; change (first (t0 :: ts)) with (Some t0);
    rewrite ?Hhi; exec;
    repeat (break_match; exec; rewrite ?Hhi; exec);
    eexists; split; try reflexivity; split; reflexivity.
Qed.

Lemma click_sets_both_events_witness :
  plotted demo_playing
  /\ exists st',
       on_mouse_click (right_click 5) demo_playing = Ok tt st'
       /\ pause_event st' = true
       /\ stop_event st' = true.
Proof.
  assert (P : plotted demo_playing).
  { eexists. eexists. eexists.
    split; [vm_compute; reflexivity|].
    split; [reflexivity|vm_compute; reflexivity]. }
  split; [exact P|].
  exact (click_sets_both_events demo_playing (right_click 5) 5 0 P
           eq_refl eq_refl).
Defined.

(** An out-of-range left click leaves the last position as it was. *)
Lemma left_click_out_of_range (st : App) (x y lo hi : Q) (t : list Q) (l : Q * option Q) :
  time_axis st = Some t -> first t = Some lo -> last_item t = Some hi ->
  lines st = Some l ->
  ~ (lo <= x <= hi)%Q ->
  exists st',
    on_mouse_click {| xdata := Some x; ydata := Some y; button := LEFT |} st
    = Ok tt st'
    /\ last_pos (sound st') = last_pos (sound st)
    /\ marker_pos (sound st') = marker_pos (sound st).
Proof.
  intros Ht Hlo Hhi Hl Hout.
  destruct st as [pe se q [p lp mk] d fs ta ln th ap lt lm pb pab sb dl].
  simpl in Ht, Hl. subst ta ln.
  exec. rewrite Hlo. exec.
  destruct (Qle_bool lo x) eqn:E1; exec.
  - rewrite Hhi. exec.
    destruct (Qle_bool x hi) eqn:E2; exec.
    + exfalso. apply Hout. split; apply Qle_bool_iff; assumption.
    + eexists. split; [reflexivity|]. split; reflexivity.
  - eexists. split; [reflexivity|]. split; reflexivity.
Qed.

(** An out-of-range right click stores the last position in the marker. *)
Lemma right_click_out_of_range (st : App) (x y lo hi : Q) (t : list Q) (l : Q * option Q) :
  time_axis st = Some t -> first t = Some lo -> last_item t = Some hi ->
  lines st = Some l ->
  ~ (lo <= x <= hi)%Q ->
  exists st',
    on_mouse_click {| xdata := Some x; ydata := Some y; button := RIGHT |} st
    = Ok tt st'
    /\ marker_pos (sound st') = Some (last_pos (sound st)).
Proof.
  intros Ht Hlo Hhi Hl Hout.
  destruct st as [pe se q [p lp mk] d fs ta ln th ap lt lm pb pab sb dl].
  simpl in Ht, Hl. subst ta ln.
  exec. rewrite Hlo. exec.
  destruct (Qle_bool lo x) eqn:E1; exec.
  - rewrite Hhi. exec.
    destruct (Qle_bool x hi) eqn:E2; exec.
    + exfalso. apply Hout. split; apply Qle_bool_iff; assumption.
    + eexists. split; reflexivity.
  - eexists. split; reflexivity.
Qed.

(** C2 at a failing input: on the 3.0 s file, with the marker at 1.2 s and
    the last position at 0.4 s, a right click at 5.0 s (beyond the time axis)
    moves the marker to 0.4 s. *)
Theorem right_click_out_of_range_moves_marker :
  let st' := state_of (on_mouse_click (right_click 5) demo_marked) in
  marker_pos (sound demo_marked) = Some (6 # 5)%Q
  /\ last_pos (sound demo_marked) = (2 # 5)%Q
  /\ time_axis demo_marked = Some [0 # 12; 6 # 12; 12 # 12; 18 # 12; 24 # 12; 30 # 12]%Q
  /\ marker_pos (sound st') = Some (2 # 5)%Q
  /\ marker_pos (sound st') <> marker_pos (sound demo_marked).
Proof.
  vm_compute. repeat split; try reflexivity. discriminate.
Qed.

(** C3, as stated, fails: while the 3.0 s file is playing, a right click at
    1.2 s sets the marker and also sets the stop and pause events. *)
Lemma right_click_halts_playback :
  let st' := state_of (on_mouse_click (right_click (6 # 5)) demo_playing) in
  stop_event demo_playing = false
  /\ pause_event demo_playing = false
  /\ transport demo_playing = Playing
  /\ marker_pos (sound st') = Some (6 # 5)%Q
  /\ stop_event st' = true
  /\ pause_event st' = true
  /\ transport st' = Paused.
Proof. vm_compute. repeat split; reflexivity. Qed.

(** C3, amended: a right click at an in-range time [x] sets the marker to
    [x] and leaves the last position, the current position, the threads and
    the relay as they were; it sets the pause event and the stop event. *)
Theorem right_click_sets_marker (st : App) (x y lo hi : Q) (t : list Q)
        (l : Q * option Q) :
  time_axis st = Some t -> first t = Some lo -> last_item t = Some hi ->
  lines st = Some l ->
  (lo <= x <= hi)%Q ->
  exists st',
    on_mouse_click {| xdata := Some x; ydata := Some y; button := RIGHT |} st
    = Ok tt st'
    /\ marker_pos (sound st') = Some x
    /\ last_pos (sound st') = last_pos (sound st)
    /\ pos (sound st') = pos (sound st)
    /\ threads st' = threads st
    /\ queue st' = queue st
    /\ pause_event st' = true
    /\ stop_event st' = true.
Proof.
  intros Ht Hlo Hhi Hl [H1 H2].
  apply Qle_bool_iff in H1. apply Qle_bool_iff in H2.
  destruct st as [pe se q [p lp mk] d fs ta ln th ap lt lm pb pab sb dl].
  simpl in Ht, Hl. subst ta ln.
  exec. rewrite Hlo. exec. rewrite H1. exec. rewrite Hhi. exec.
  rewrite H2. exec.
  eexists. split; [reflexivity|]. repeat split; reflexivity.
Qed.

Lemma right_click_sets_marker_witness :
  time_axis demo_playing = Some (linspace 0 (inject_Z 6 / inject_Z 2) 6)
  /\ (0 # 12 <= 6 # 5 <= 30 # 12)%Q
  /\ exists st',
       on_mouse_click (right_click (6 # 5)) demo_playing = Ok tt st'
       /\ marker_pos (sound st') = Some (6 # 5)%Q
       /\ last_pos (sound st') = last_pos (sound demo_playing)
       /\ pos (sound st') = pos (sound demo_playing)
       /\ threads st' = threads demo_playing
       /\ queue st' = queue demo_playing
       /\ pause_event st' = true
       /\ stop_event st' = true.
Proof.
  assert (Ht : time_axis demo_playing
               = Some (linspace 0 (inject_Z 6 / inject_Z 2) 6))
    by (vm_compute; reflexivity).
  assert (Hr : (0 # 12 <= 6 # 5 <= 30 # 12)%Q) by (split; discriminate).
  split; [exact Ht|]. split; [exact Hr|].
  refine (right_click_sets_marker demo_playing (6 # 5) 0 (0 # 12) (30 # 12)
            _ (2 # 2, None) Ht _ _ _ _).
  - vm_compute. reflexivity.
  - vm_compute. reflexivity.
  - vm_compute. reflexivity.
  - split; discriminate.
Defined.

(** ** Loading a file *)

Lemma linspace_S (start stop : Q) (n : nat) :
  linspace start stop (S n) =
  (inject_Z 0 * ((stop - start) / inject_Z (Z.of_nat (S n))) + start)%Q
    :: map (fun i => (inject_Z (Z.of_nat i)
                      * ((stop - start) / inject_Z (Z.of_nat (S n))) + start)%Q)
           (seq 1 n).
Proof. reflexivity. Qed.

(** A queue that is not empty gives its newest item. *)
Lemma get_nonempty (q : LifoQueue.t) :
  LifoQueue.empty q = false -> exists v q', LifoQueue.get q = Some (v, q').
Proof.
  destruct q as [m l]. unfold LifoQueue.empty, LifoQueue.get, LifoQueue.qsize, len.
  simpl. intros H. destruct (rev l) as [|v r] eqn:E.
  - apply (f_equal (@List.length Q)) in E. rewrite length_rev in E.
    simpl in E. rewrite E in H. discriminate H.
  - eexists. eexists. reflexivity.
Qed.

(** A file with some non-zero sample and a non-zero sample rate is loaded:
    the session is replaced, the dialog shows [len(data) / samplerate], the
    plot is made and the three buttons are enabled. *)
Lemma extract_audio_data_loads (st : App) (sf_read : string -> SfRead)
      (file_path : string) (d : ndarray) (fs : Z) :
  file_path <> EmptyString ->
  sf_read file_path = SfData d fs ->
  any d = true ->
  fs <> 0 ->
  exists st',
    extract_audio_data sf_read file_path st = Ok tt st'
    /\ data st' = Some d
    /\ samplerate st' = Some fs
    /\ dialogs st' = duration d fs :: dialogs st
    /\ time_axis st' = Some (linspace 0 (duration d fs) (List.length d))
    /\ last_pos (sound st') = 0%Q
    /\ marker_pos (sound st') = None
    /\ play_button st' = true
    /\ pause_button st' = true
    /\ stop_button st' = true
    /\ threads st' = threads st
    /\ plotted st'.
Proof.
  intros Hp Hr Hany Hfs.
  apply String.eqb_neq in Hp. apply Z.eqb_neq in Hfs.
  destruct d as [|f d]; [discriminate Hany|].
  destruct (last_item_cons
              (inject_Z 0 * ((duration (f :: d) fs - 0)
                             / inject_Z (Z.of_nat (S (List.length d)))) + 0)%Q
              (map (fun i => (inject_Z (Z.of_nat i)
                              * ((duration (f :: d) fs - 0)
                                 / inject_Z (Z.of_nat (S (List.length d)))) + 0)%Q)
                   (seq 1 (List.length d)))) as [hi Hhi].
  destruct st as [pe se q [p lp mk] dd ff ta ln th ap lt lm pb pab sb dl].
  exec. rewrite Hp. exec. rewrite Hr. exec. rewrite Hany, Hfs. exec.
  rewrite ?Hfs. exec.
  change (List.length (f :: d)) with (S (List.length d)).
  change (inject_Z (len (f :: d)) / inject_Z fs)%Q with (duration (f :: d) fs).
  rewrite linspace_S.
  change (first (?a :: ?b)) with (Some a). exec.
  rewrite Hhi. exec.
  unfold plotted.
  destruct (LifoQueue.empty q) eqn:Hq; exec.
  - destruct th as [|w th]; exec; [|destruct (alive w); exec].
    all: eexists; split; [reflexivity|]; simpl.
    all: repeat (split; [reflexivity|]).
    all: do 3 eexists; split; [reflexivity|]; split; [|reflexivity].
    all: unfold Qeq; simpl; lia.
  - destruct (get_nonempty q Hq) as [v [q' Hg]]. rewrite Hg. exec.
    destruct th as [|w th]; exec; [|destruct (alive w); exec].
    all: eexists; split; [reflexivity|]; simpl.
    all: repeat (split; [reflexivity|]).
    all: do 3 eexists; split; [reflexivity|]; split; [|reflexivity].
    all: unfold Qeq; simpl; lia.
Qed.

(** A file whose samples are all zero, or whose sample rate is zero, is not
    loaded: the call returns after replacing [data] and [samplerate] only. *)
Lemma extract_audio_data_rejected (st : App) (sf_read : string -> SfRead)
      (file_path : string) (d : ndarray) (fs : Z) :
  file_path <> EmptyString ->
  sf_read file_path = SfData d fs ->
  any d && negb (fs =? 0) = false ->
  extract_audio_data sf_read file_path st
  = Ok tt (set_samplerate fs (set_data d st)).
Proof.
  intros Hp Hr Hbad. apply String.eqb_neq in Hp.
  unfold extract_audio_data. rewrite Hp. simpl negb. cbv iota.
  rewrite Hr. destruct st. exec.
  destruct (any d), (fs =? 0); try discriminate Hbad; exec; reflexivity.
Qed.

(** A file that [sf.read] cannot read raises, and nothing is changed. *)
Lemma extract_audio_data_unreadable (st : App) (sf_read : string -> SfRead)
      (file_path : string) :
  sf_read file_path = SfRaise ->
  state_of (extract_audio_data sf_read file_path st) = st
  /\ (file_path <> EmptyString ->
      extract_audio_data sf_read file_path st = Raise SoundFileError st).
Proof.
  intros Hr. unfold extract_audio_data. rewrite Hr.
  destruct (String.eqb file_path EmptyString) eqn:E; simpl.
  - split; [reflexivity|]. intros H. apply String.eqb_eq in E. contradiction.
  - split; reflexivity.
Qed.

(** C1 at a failing input: opening a 2.0 s, 44100 Hz mono file of zero
    samples in a fresh window returns without loading it: no dialog reports
    the duration, no plot is made and the buttons stay disabled. *)
Theorem silent_file_not_loaded :
  let r := open_file silence_file "silence.wav" init in
  len silence = 88200
  /\ (duration silence 44100 == 2)%Q
  /\ any silence = false
  /\ returned r = true
  /\ dialogs (state_of r) = []
  /\ time_axis (state_of r) = None
  /\ lines (state_of r) = None
  /\ play_button (state_of r) = false
  /\ pause_button (state_of r) = false
  /\ stop_button (state_of r) = false.
Proof.
  cbv zeta.
  repeat (apply conj; [vm_compute; reflexivity|]).
  vm_compute; reflexivity.
Qed.

(** C9 at a failing input: with the 3.0 s file loaded, opening a file that
    decodes to no frames returns without a dialog and leaves the positions
    and the plot alone, but the sample buffer and the sample rate are now
    those of the rejected file. *)
Theorem rejected_file_replaces_buffer :
  let r := open_file demo_files "empty.wav" demo_marked in
  data demo_marked = Some demo_data
  /\ samplerate demo_marked = Some 2
  /\ returned r = true
  /\ data (state_of r) = Some []
  /\ samplerate (state_of r) = Some 8000
  /\ sound (state_of r) = sound demo_marked
  /\ time_axis (state_of r) = time_axis demo_marked
  /\ dialogs (state_of r) = dialogs demo_marked.
Proof.
  cbv zeta.
  repeat (apply conj; [vm_compute; reflexivity|]).
  vm_compute; reflexivity.
Qed.

(** ** The plot stays in place once a file is loaded *)

Ltac plotted_leaf :=
  unfold plotted; simpl;
  do 3 eexists; split; [reflexivity|]; split; [eassumption|reflexivity].

Lemma step_plotted (st st' : App) (e : Event) :
  plotted st -> step st e = Some st' -> plotted st'.
Proof.
  unfold step. destruct (enabled e st); [|discriminate].
  intros Hp H. injection H as <-.
  destruct e as [sf_read file_path| | | |event| |i frames|i finished].
  - (* OpenFile *)
    unfold handler, open_file.
    destruct (String.eqb file_path EmptyString) eqn:Hpath; cbn [negb];
      [exact Hp|].
    apply String.eqb_neq in Hpath.
    destruct (sf_read file_path) as [|d fs] eqn:Hr.
    + rewrite (proj1 (extract_audio_data_unreadable st sf_read file_path Hr)).
      exact Hp.
    + destruct (any d && negb (fs =? 0)) eqn:Hok.
      * apply andb_prop in Hok. destruct Hok as [Hany Hfs].
        apply negb_true_iff in Hfs. apply Z.eqb_neq in Hfs.
        destruct (extract_audio_data_loads st sf_read file_path d fs
                    Hpath Hr Hany Hfs) as [st1 [E H]].
        rewrite E. simpl. repeat (destruct H as [_ H]). exact H.
      * rewrite (extract_audio_data_rejected st sf_read file_path d fs
                   Hpath Hr Hok).
        destruct Hp as [t0 [ts [l [Ht [H0 Hl]]]]].
        destruct st. simpl in *. subst. plotted_leaf.
  - (* ClickPlay *)
    destruct Hp as [t0 [ts [l [Ht [H0 Hl]]]]].
    destruct st as [pe se q [p lp mk] d fs ta ln th ap lt lm pb pab sb dl].
    simpl in Ht, Hl. subst ta ln.
    exec; repeat (break_match; exec); plotted_leaf.
  - (* ClickPause *)
    destruct Hp as [t0 [ts [l [Ht [H0 Hl]]]]].
    destruct st as [pe se q [p lp mk] d fs ta ln th ap lt lm pb pab sb dl].
    simpl in Ht, Hl. subst ta ln.
    exec; repeat (break_match; exec); plotted_leaf.
  - (* ClickStop *)
    destruct Hp as [t0 [ts [l [Ht [H0 Hl]]]]].
    destruct st as [pe se q [p lp mk] d fs ta ln th ap lt lm pb pab sb dl].
    simpl in Ht, Hl. subst ta ln.
    exec; repeat (break_match; exec); plotted_leaf.
  - (* MouseClick *)
    destruct Hp as [t0 [ts [l [Ht [H0 Hl]]]]].
    destruct event as [xd yd b].
    destruct st as [pe se q [p lp mk] d fs ta ln th ap lt lm pb pab sb dl].
    simpl in Ht, Hl. subst ta ln.
    exec; repeat (break_match; exec); plotted_leaf.
  - (* Tick *)
    destruct Hp as [t0 [ts [l [Ht [H0 Hl]]]]].
    destruct st as [pe se q [p lp mk] d fs ta ln th ap lt lm pb pab sb dl].
    simpl in Ht, Hl. subst ta ln.
    exec; repeat (break_match; exec); plotted_leaf.
  - (* Callback *)
    destruct Hp as [t0 [ts [l [Ht [H0 Hl]]]]].
    destruct st as [pe se q [p lp mk] d fs ta ln th ap lt lm pb pab sb dl].
    simpl in Ht, Hl. subst ta ln.
    exec; repeat (break_match; exec); plotted_leaf.
  - (* ThreadExit *)
    destruct Hp as [t0 [ts [l [Ht [H0 Hl]]]]].
    destruct st as [pe se q [p lp mk] d fs ta ln th ap lt lm pb pab sb dl].
    simpl in Ht, Hl. subst ta ln.
    exec; repeat (break_match; exec); plotted_leaf.
Qed.

Lemma run_plotted (es : list Event) :
  forall st st', plotted st -> run st es = Some st' -> plotted st'.
Proof.
  induction es as [|e es IH]; simpl; intros st st' Hp Hrun.
  - injection Hrun as <-. exact Hp.
  - destruct (step st e) as [st1|] eqn:Hstep; [|discriminate].
    exact (IH st1 st' (step_plotted st st1 e Hp Hstep) Hrun).
Qed.

Lemma step_session_inv (st st' : App) (e : Event) :
  session_inv st -> step st e = Some st' -> session_inv st'.
Proof.
  intros [Hp|[Hl [Hb1 [Hb2 Hb3]]]] Hstep.
  - left. exact (step_plotted st st' e Hp Hstep).
  - revert Hstep. unfold step.
    destruct (enabled e st) eqn:En; [|discriminate].
    intros H. injection H as <-.
    destruct e as [sf_read file_path| | | |event| |i frames|i finished];
      simpl in En; try congruence.
    + (* OpenFile *)
      unfold handler, open_file.
      destruct (String.eqb file_path EmptyString) eqn:Hpath; cbn [negb].
      { right. simpl. auto. }
      apply String.eqb_neq in Hpath.
      destruct (sf_read file_path) as [|d fs] eqn:Hr.
      * rewrite (proj1 (extract_audio_data_unreadable st sf_read file_path Hr)).
        right. auto.
      * destruct (any d && negb (fs =? 0)) eqn:Hok.
        -- apply andb_prop in Hok. destruct Hok as [Hany Hfs].
           apply negb_true_iff in Hfs. apply Z.eqb_neq in Hfs.
           destruct (extract_audio_data_loads st sf_read file_path d fs
                       Hpath Hr Hany Hfs) as [st1 [E H]].
           rewrite E. simpl. repeat (destruct H as [_ H]). left. exact H.
        -- rewrite (extract_audio_data_rejected st sf_read file_path d fs
                      Hpath Hr Hok).
           right. destruct st. simpl in *. auto.
    + (* MouseClick *)
      rewrite Hl in En. discriminate En.
    + (* Tick *)
      right.
      destruct st as [pe se q [p lp mk] d fs ta ln th ap lt lm pb pab sb dl].
      simpl in Hl, Hb1, Hb2, Hb3. subst ln pb pab sb.
      exec; repeat (break_match; exec); simpl; auto.
    + (* Callback *)
      right.
      destruct st as [pe se q [p lp mk] d fs ta ln th ap lt lm pb pab sb dl].
      simpl in Hl, Hb1, Hb2, Hb3. subst ln pb pab sb.
      exec; repeat (break_match; exec); simpl; auto.
    + (* ThreadExit *)
      right.
      destruct st as [pe se q [p lp mk] d fs ta ln th ap lt lm pb pab sb dl].
      simpl in Hl, Hb1, Hb2, Hb3. subst ln pb pab sb.
      exec; repeat (break_match; exec); simpl; auto.
Qed.

Lemma reachable_session_inv (st : App) : reachable st -> session_inv st.
Proof.
  intros [es Hrun].
  assert (G : forall es st0 st1,
             session_inv st0 -> run st0 es = Some st1 -> session_inv st1).
  { clear. induction es as [|e es IH]; simpl; intros st0 st1 Hi Hr.
    - injection Hr as <-. exact Hi.
    - destruct (step st0 e) as [st2|] eqn:Hs; [|discriminate].
      exact (IH st2 st1 (step_session_inv st0 st2 e Hi Hs) Hr). }
  apply (G es init st); [|exact Hrun].
  right. simpl. auto.
Qed.

(** In a reachable state, a button that can be pressed or a canvas that can
    be clicked means that a file has been plotted. *)
Lemma reachable_enabled_plotted (st : App) (e : Event) :
  reachable st ->
  enabled e st = true ->
  match e with
  | ClickPlay | ClickPause | ClickStop | MouseClick _ => plotted st
  | _ => True
  end.
Proof.
  intros Hr En. destruct (reachable_session_inv st Hr) as [Hp|[Hl [H1 [H2 H3]]]];
    destruct e; simpl in *; auto; try congruence.
  rewrite Hl in En. discriminate En.
Qed.

(** ** Stop *)

Lemma empty_clear (q : LifoQueue.t) : LifoQueue.empty (LifoQueue.clear q) = true.
Proof. reflexivity. Qed.

(** Stop on a plotted file: the call returns, the stop event is set, the
    pause event is clear, both positions are the start of the time axis, and
    a second Stop changes nothing. *)
Lemma click_stop_resets (st : App) :
  plotted st ->
  exists st',
    click_stop st = Ok tt st'
    /\ stop_event st' = true
    /\ pause_event st' = false
    /\ (last_pos (sound st') == 0)%Q
    /\ (pos (sound st') == 0)%Q
    /\ worker_running st' = false
    /\ click_stop st' = Ok tt st'.
Proof.
  intros [t0 [ts [l [Ht [H0 Hl]]]]].
  destruct st as [pe se q [p lp mk] d fs ta ln th ap lt lm pb pab sb dl].
  simpl in Ht, Hl. subst ta ln.
  unfold worker_running.
  destruct th as [|w th]; [|destruct (alive w) eqn:Hw].
  all: exec; repeat (progress change (first (t0 :: ts)) with (Some t0); exec);
    rewrite ?Hw; exec.
  all: eexists; split; [reflexivity|].
  all: repeat (split; [first [reflexivity | exact H0]|]).
  all: try (apply conj; [cbn; rewrite ?Hw; reflexivity|]).
  all: exec; repeat (progress change (first (t0 :: ts)) with (Some t0); exec);
    rewrite ?Hw; exec; reflexivity.
Qed.

(** C5: on a loaded file, Stop followed by Stop gives the state and the
    result of a single Stop: last position 0, current position 0, the stop
    event set, the pause event clear and no worker running. *)
Theorem stop_idempotent (st : App) :
  plotted st ->
  exists st1,
    click_stop st = Ok tt st1
    /\ (click_stop ;; click_stop) st = click_stop st
    /\ (last_pos (sound st1) == 0)%Q
    /\ (pos (sound st1) == 0)%Q
    /\ stop_event st1 = true
    /\ pause_event st1 = false
    /\ worker_running st1 = false.
Proof.
  intros Hp.
  destruct (click_stop_resets st Hp) as [st1 [E [Hs [Hpa [Hl [Hps [Hw E']]]]]]].
  exists st1. split; [exact E|]. split.
  - unfold bind at 1. rewrite E. rewrite E'. reflexivity.
  - auto.
Qed.

Lemma stop_idempotent_witness :
  plotted demo_playing
  /\ exists st1,
       click_stop demo_playing = Ok tt st1
       /\ (click_stop ;; click_stop) demo_playing = click_stop demo_playing
       /\ (last_pos (sound st1) == 0)%Q
       /\ (pos (sound st1) == 0)%Q
       /\ stop_event st1 = true
       /\ pause_event st1 = false
       /\ worker_running st1 = false.
Proof.
  assert (P : plotted demo_playing).
  { eexists. eexists. eexists.
    split; [vm_compute; reflexivity|].
    split; [reflexivity|vm_compute; reflexivity]. }
  split; [exact P|].
  exact (stop_idempotent demo_playing P).
Defined.

(** Play on a plotted file starts a thread at the last position and leaves
    the stop and pause events clear. *)
Lemma click_play_starts (st : App) (d : ndarray) (fs : Z) :
  plotted st ->
  data st = Some d ->
  samplerate st = Some fs ->
  exists st1,
    click_play st = Ok tt st1
    /\ play_thread st1 = Some (AsyncPlay_start d fs (last_pos (sound st)))
    /\ stop_event st1 = false
    /\ pause_event st1 = false
    /\ last_pos (sound st1) = last_pos (sound st)
    /\ pos (sound st1) = last_pos (sound st)
    /\ plotted st1.
Proof.
  intros [t0 [ts [l [Ht [H0 Hl]]]]] Hd Hfs.
  destruct st as [pe se q [p lp mk] dd ff ta ln th ap lt lm pb pab sb dl].
  simpl in Ht, Hl, Hd, Hfs. subst ta ln dd ff.
  exec. rewrite empty_clear. exec.
  eexists. split; [reflexivity|].
  repeat (split; [reflexivity|]).
  plotted_leaf.
Qed.

(** C4: Play from any last position [s] (in particular 0 <= s <= duration)
    starts a worker at [s]; whatever happens next, in particular nothing
    (Playing) or a Pause (Paused), the Stop command sets the stop event and
    puts the last position and the current position at 0. *)
Theorem stop_after_play_resets (st : App) (d : ndarray) (fs : Z) (s : Q) :
  plotted st ->
  data st = Some d ->
  samplerate st = Some fs ->
  last_pos (sound st) = s ->
  exists st1,
    click_play st = Ok tt st1
    /\ play_thread st1 = Some (AsyncPlay_start d fs s)
    /\ transport st1 = Playing
    /\ forall (es : list Event) (st2 : App),
         run st1 es = Some st2 ->
         exists st3,
           click_stop st2 = Ok tt st3
           /\ stop_event st3 = true
           /\ (last_pos (sound st3) == 0)%Q
           /\ (pos (sound st3) == 0)%Q.
Proof.
  intros Hp Hd Hfs Hs.
  destruct (click_play_starts st d fs Hp Hd Hfs)
    as [st1 [E [Ht [Hst [Hpa [_ [_ Hp1]]]]]]].
  exists st1. split; [exact E|]. split; [rewrite <- Hs; exact Ht|]. split.
  - unfold transport. rewrite Hst. reflexivity.
  - intros es st2 Hrun.
    pose proof (run_plotted es st1 st2 Hp1 Hrun) as Hp2.
    destruct (click_stop_resets st2 Hp2) as [st3 [E3 [H1 [_ [H2 [H3 _]]]]]].
    exists st3. auto.
Qed.

Lemma stop_after_play_resets_witness :
  plotted demo_marked
  /\ last_pos (sound demo_marked) = (2 # 5)%Q
  /\ exists st1,
       click_play demo_marked = Ok tt st1
       /\ play_thread st1 = Some (AsyncPlay_start demo_data 2 (2 # 5))
       /\ transport st1 = Playing
       /\ forall (es : list Event) (st2 : App),
            run st1 es = Some st2 ->
            exists st3,
              click_stop st2 = Ok tt st3
              /\ stop_event st3 = true
              /\ (last_pos (sound st3) == 0)%Q
              /\ (pos (sound st3) == 0)%Q.
Proof.
  assert (P : plotted demo_marked).
  { eexists. eexists. eexists.
    split; [vm_compute; reflexivity|].
    split; [reflexivity|vm_compute; reflexivity]. }
  assert (L : last_pos (sound demo_marked) = (2 # 5)%Q)
    by (vm_compute; reflexivity).
  split; [exact P|]. split; [exact L|].
  refine (stop_after_play_resets demo_marked demo_data 2 (2 # 5) P _ _ L).
  - vm_compute. reflexivity.
  - vm_compute. reflexivity.
Defined.

(** ** Pause and resume *)

(** Resume starts the new thread at the last position, whatever it is. *)
Lemma resume_seeds_last_pos (st : App) (d : ndarray) (fs : Z) :
  data st = Some d ->
  samplerate st = Some fs ->
  pause_event st = true ->
  play_thread (state_of (click_pause st))
  = Some (AsyncPlay_start d fs (last_pos (sound st))).
Proof.
  intros Hd Hfs Hpa.
  destruct st as [pe se q [p lp mk] dd ff ta ln th ap lt lm pb pab sb dl].
  simpl in Hd, Hfs, Hpa. subst dd ff pe.
  exec; repeat (break_match; exec); reflexivity.
Qed.



(** ** The sessions used above are sessions of the application *)

Lemma demo_marked_reachable :
  run init [OpenFile demo_files "tone.wav"; Tick;
            MouseClick (right_click (6 # 5));
            MouseClick (left_click (2 # 5))] = Some demo_marked
  /\ enabled (MouseClick (right_click 5)) demo_marked = true
  /\ enabled ClickPlay demo_marked = true.
Proof.
  split; [vm_compute; reflexivity|].
  split; vm_compute; reflexivity.
Qed.

Lemma demo_playing_enabled :
  enabled ClickPause demo_playing = true
  /\ enabled ClickStop demo_playing = true
  /\ enabled Tick demo_playing = true
  /\ enabled (MouseClick (right_click (6 # 5))) demo_playing = true.
Proof.
  repeat (apply conj; [vm_compute; reflexivity|]).
  vm_compute; reflexivity.
Qed.

(** * Further properties of the handlers *)

(** ** Clicks *)

(** Whatever the event, [on_mouse_click] never moves the current position
    and never touches the relay, the threads, the loaded data, the time axis,
    the scheduled redraws or the buttons; a click outside the axes (no x or
    no y coordinate) changes nothing at all, and a click with a button other
    than left and right leaves the three positions alone. *)
Theorem click_frame (st : App) (event : MouseEvent) :
  let st' := state_of (on_mouse_click event st) in
  (pos (sound st') = pos (sound st)
   /\ queue st' = queue st
   /\ threads st' = threads st
   /\ data st' = data st
   /\ samplerate st' = samplerate st
   /\ time_axis st' = time_axis st
   /\ after_pending st' = after_pending st
   /\ play_button st' = play_button st
   /\ pause_button st' = pause_button st
   /\ stop_button st' = stop_button st)
  /\ (xdata event = None \/ ydata event = None ->
      on_mouse_click event st = Ok tt st)
  /\ (button event <> LEFT -> button event <> RIGHT -> sound st' = sound st).
Proof.
  destruct event as [xd yd b].
  destruct st as [pe se q [p lp mk] d fs ta ln th ap lt lm pb pab sb dl].
  cbv zeta. split; [|split].
  - exec; repeat (break_match; exec); simpl; repeat split; reflexivity.
  - simpl. intros [H|H]; subst; [|destruct xd]; reflexivity.
  - simpl. intros HL HR.
    destruct b; try contradiction;
      exec; repeat (break_match; exec); reflexivity.
Qed.

(** A left click at an in-range time [x] makes [x] the last position, shows
    it on the cursor line and the time label, keeps the marker and the
    current position, and sets the pause and stop events. *)
Theorem left_click_sets_last_pos (st : App) (x y lo hi : Q) (t : list Q)
        (l : Q * option Q) :
  time_axis st = Some t -> first t = Some lo -> last_item t = Some hi ->
  lines st = Some l ->
  (lo <= x <= hi)%Q ->
  exists st',
    on_mouse_click {| xdata := Some x; ydata := Some y; button := LEFT |} st
    = Ok tt st'
    /\ last_pos (sound st') = x
    /\ marker_pos (sound st') = marker_pos (sound st)
    /\ pos (sound st') = pos (sound st)
    /\ lines st' = Some (x, marker_pos (sound st))
    /\ label_time st' = x
    /\ pause_event st' = true
    /\ stop_event st' = true.
Proof.
  intros Ht Hlo Hhi Hl [H1 H2].
  apply Qle_bool_iff in H1. apply Qle_bool_iff in H2.
  destruct st as [pe se q [p lp mk] d fs ta ln th ap lt lm pb pab sb dl].
  simpl in Ht, Hl. subst ta ln.
  exec. rewrite Hlo. exec. rewrite H1. exec. rewrite Hhi. exec.
  rewrite H2. exec.
  eexists. split; [reflexivity|]. repeat split; reflexivity.
Qed.

Lemma left_click_sets_last_pos_witness :
  time_axis demo_playing = Some (linspace 0 (inject_Z 6 / inject_Z 2) 6)
  /\ (0 # 12 <= 2 # 5 <= 30 # 12)%Q
  /\ exists st',
       on_mouse_click (left_click (2 # 5)) demo_playing = Ok tt st'
       /\ last_pos (sound st') = (2 # 5)%Q
       /\ marker_pos (sound st') = marker_pos (sound demo_playing)
       /\ pos (sound st') = pos (sound demo_playing)
       /\ lines st' = Some ((2 # 5)%Q, marker_pos (sound demo_playing))
       /\ label_time st' = (2 # 5)%Q
       /\ pause_event st' = true
       /\ stop_event st' = true.
Proof.
  assert (Ht : time_axis demo_playing
               = Some (linspace 0 (inject_Z 6 / inject_Z 2) 6))
    by (vm_compute; reflexivity).
  assert (Hr : (0 # 12 <= 2 # 5 <= 30 # 12)%Q) by (split; discriminate).
  split; [exact Ht|]. split; [exact Hr|].
  refine (left_click_sets_last_pos demo_playing (2 # 5) 0 (0 # 12) (30 # 12)
            _ (2 # 2, None) Ht _ _ _ _).
  - vm_compute. reflexivity.
  - vm_compute. reflexivity.
  - vm_compute. reflexivity.
  - split; discriminate.
Defined.

(** ** The audio callback *)

Lemma nth_error_set_nth_other {A : Type} (l : list A) :
  forall (i j : nat) (x : A),
    j <> i -> nth_error (set_nth i x l) j = nth_error l j.
Proof.
  induction l as [|h t IH]; intros [|i] [|j] x H; simpl; try reflexivity.
  - contradiction.
  - apply IH. intros E. apply H. rewrite E. reflexivity.
Qed.

(** When fewer frames remain than the device asks for, the callback ends the
    stream: the stop event is set, nothing is published to the relay, the
    cursor stays where it was and the positions are not touched. *)
Theorem callback_exhausted (st : App) (i : nat) (frames : Z) (w : AsyncPlay) :
  nth_error (threads st) i = Some w ->
  len (t_data w) - current_frame w < frames ->
  exists st',
    callback i frames st = Ok tt st'
    /\ stop_event st' = true
    /\ queue st' = queue st
    /\ sound st' = sound st
    /\ nth_error (threads st') i = Some (with_status w (alive w) false).
Proof.
  intros Hw Hlt.
  destruct st as [pe se q [p lp mk] d fs ta ln th ap lt lm pb pab sb dl].
  simpl in Hw.
  assert (E : (Z.min (len (t_data w) - current_frame w) frames <? frames) = true)
    by (apply Z.ltb_lt; lia).
  exec. rewrite Hw. exec. rewrite E. exec.
  eexists. split; [reflexivity|]. simpl.
  repeat (split; [reflexivity|]).
  apply (nth_error_set_nth th i _ w Hw).
Qed.

Lemma callback_exhausted_witness :
  nth_error (threads demo_playing) 0
  = Some {| current_frame := 5; t_data := demo_data; t_fs := 2;
            curr_time := (inject_Z 4 / inject_Z 2)%Q;
            alive := true; streaming := true |}
  /\ exists st',
       callback 0 2 demo_playing = Ok tt st'
       /\ stop_event st' = true
       /\ queue st' = queue demo_playing
       /\ sound st' = sound demo_playing
       /\ nth_error (threads st') 0
          = Some {| current_frame := 5; t_data := demo_data; t_fs := 2;
                    curr_time := (inject_Z 4 / inject_Z 2)%Q;
                    alive := true; streaming := false |}.
Proof.
  assert (Hw : nth_error (threads demo_playing) 0
               = Some {| current_frame := 5; t_data := demo_data; t_fs := 2;
                         curr_time := (inject_Z 4 / inject_Z 2)%Q;
                         alive := true; streaming := true |})
    by (vm_compute; reflexivity).
  split; [exact Hw|].
  refine (callback_exhausted demo_playing 0 2 _ Hw _).
  vm_compute. reflexivity.
Defined.

(** A callback asked for a non-negative number of frames never moves the
    cursor of its thread backwards and never moves it past the end of the
    thread's data; it changes neither the data, the sample rate nor the
    liveness of the thread, and it leaves every other thread alone.  This
    holds whether the callback returns or raises. *)
Theorem callback_cursor (st : App) (i : nat) (frames : Z) (w : AsyncPlay) :
  nth_error (threads st) i = Some w ->
  0 <= frames ->
  let st' := state_of (callback i frames st) in
  (exists w',
      nth_error (threads st') i = Some w'
      /\ t_data w' = t_data w
      /\ t_fs w' = t_fs w
      /\ alive w' = alive w
      /\ current_frame w <= current_frame w'
      /\ (current_frame w <= len (t_data w) ->
          current_frame w' <= len (t_data w)))
  /\ forall j : nat, j <> i -> nth_error (threads st') j = nth_error (threads st) j.
Proof.
  intros Hw Hfr.
  destruct st as [pe se q [p lp mk] d fs ta ln th ap lt lm pb pab sb dl].
  simpl in Hw. cbv zeta.
  exec. rewrite Hw. exec.
  destruct (Z.min (len (t_data w) - current_frame w) frames <? frames) eqn:E;
    exec.
  - split.
    + eexists. split; [apply (nth_error_set_nth th i _ w Hw)|]. simpl.
      repeat split; try reflexivity; lia.
    + intros j Hj. apply nth_error_set_nth_other. exact Hj.
  - apply Z.ltb_ge in E.
    destruct (LifoQueue.full q); exec;
      destruct (t_fs w =? 0); exec;
      try (split; [exists w; split; [exact Hw|];
                   repeat split; try reflexivity; lia
                  | intros j Hj; reflexivity]).
    all: rewrite (nth_error_set_nth th i _ w Hw); exec.
    all: match goal with
         | |- context [LifoQueue.put ?v ?q0] => destruct (LifoQueue.put v q0)
         end; exec.
    all: rewrite ?(nth_error_set_nth th i _ w Hw); exec.
    all: split;
      [ eexists; split;
        [ first [ reflexivity
                | erewrite nth_error_set_nth;
                  [reflexivity | apply (nth_error_set_nth th i _ w Hw)] ] |];
        simpl; repeat split; try reflexivity; lia
      | intros j Hj; simpl;
        rewrite ?nth_error_set_nth_other by exact Hj; reflexivity ].
Qed.

Lemma callback_cursor_witness :
  nth_error (threads demo_playing) 0
  = Some {| current_frame := 5; t_data := demo_data; t_fs := 2;
            curr_time := (inject_Z 4 / inject_Z 2)%Q;
            alive := true; streaming := true |}
  /\ 0 <= 1
  /\ (exists w',
         nth_error (threads (state_of (callback 0 1 demo_playing))) 0 = Some w'
         /\ t_data w' = demo_data
         /\ t_fs w' = 2
         /\ alive w' = true
         /\ 5 <= current_frame w'
         /\ (5 <= len demo_data -> current_frame w' <= len demo_data))
  /\ forall j : nat,
       j <> O ->
       nth_error (threads (state_of (callback 0 1 demo_playing))) j
       = nth_error (threads demo_playing) j.
Proof.
  assert (Hw : nth_error (threads demo_playing) 0
               = Some {| current_frame := 5; t_data := demo_data; t_fs := 2;
                         curr_time := (inject_Z 4 / inject_Z 2)%Q;
                         alive := true; streaming := true |})
    by (vm_compute; reflexivity).
  split; [exact Hw|]. split; [lia|].
  refine (callback_cursor demo_playing 0 1 _ Hw _). lia.
Defined.

(** ** The redraw loop *)

(** [update_plot] with the stop event set. *)
Lemma update_plot_stopped (st : App) (lp : Q) :
  plotted st ->
  stop_event st = true ->
  exists st',
    update_plot lp st = Ok tt st'
    /\ after_pending st' = after_pending st
    /\ stop_event st' = true
    /\ pause_event st' = pause_event st
    /\ play_button st' = true
    /\ queue st' = queue st
    /\ threads st' = threads st
    /\ marker_pos (sound st') = marker_pos (sound st)
    /\ (pause_event st = false ->
        (pos (sound st') == 0)%Q /\ (last_pos (sound st') == 0)%Q
        /\ (label_time st' == 0)%Q)
    /\ (pause_event st = true ->
        pos (sound st') = pos (sound st) /\ last_pos (sound st') = lp)
    /\ lines st' = Some (pos (sound st'), marker_pos (sound st'))
    /\ plotted st'.
Proof.
  intros [t0 [ts [l [Ht [H0 Hl]]]]] Hst.
  destruct st as [pe se q [p lp0 mk] d fs ta ln th ap lt lm pb pab sb dl].
  simpl in Ht, Hl, Hst. subst ta ln se.
  destruct pe; (destruct th as [|w th]; [|destruct (alive w) eqn:Hw]).
  all: exec; repeat (progress change (first (t0 :: ts)) with (Some t0); exec);
    rewrite ?Hw; exec.
  all: eexists; split; [reflexivity|]; simpl.
  all: repeat (split; [reflexivity|]).
  all: split; [intros H; try discriminate H; repeat split; exact H0|].
  all: split; [intros H; try discriminate H; split; reflexivity|].
  all: split; [reflexivity|].
  all: do 3 eexists; split; [reflexivity|]; split; [exact H0|reflexivity].
Qed.

(** [update_plot] while playing. *)
Lemma update_plot_playing (st : App) (lp : Q) :
  plotted st ->
  relay_inv st ->
  stop_event st = false ->
  pause_event st = false ->
  exists st',
    update_plot lp st = Ok tt st'
    /\ after_pending st' = S (after_pending st)
    /\ last_pos (sound st') = lp
    /\ (LifoQueue.items (queue st) = [] -> pos (sound st') = lp)
    /\ (forall v, LifoQueue.items (queue st) = [v] -> pos (sound st') = v)
    /\ LifoQueue.items (queue st') = []
    /\ label_time st' = pos (sound st')
    /\ lines st' = Some (pos (sound st'), marker_pos (sound st'))
    /\ marker_pos (sound st') = marker_pos (sound st)
    /\ stop_event st' = negb (play_thread_active st)
    /\ pause_event st' = false
    /\ threads st' = threads st
    /\ plotted st'.
Proof.
  intros [t0 [ts [l [Ht [H0 Hl]]]]] [Hm Hlen] Hst Hpa.
  destruct st as [pe se [mx it] [p lp0 mk] d fs ta ln th ap lt lm pb pab sb dl].
  simpl in Ht, Hl, Hst, Hpa, Hm, Hlen. subst ta ln se pe mx.
  unfold play_thread_active.
  destruct it as [|a [|b it]]; [| |simpl in Hlen; lia].
  all: destruct th as [|w th]; [|destruct (alive w) eqn:Hw].
  all: exec; rewrite ?Hw; exec.
  all: eexists; split; [reflexivity|]; simpl.
  all: split; [reflexivity|].
  all: split; [reflexivity|].
  all: split; [intros H; try discriminate H; reflexivity|].
  all: split; [intros v H; try discriminate H; try injection H as <-; reflexivity|].
  all: repeat (split; [first [reflexivity | rewrite Hw; reflexivity]|]).
  all: do 3 eexists; split; [reflexivity|]; split; [exact H0|reflexivity].
Qed.

Lemma tick_unfold (st : App) :
  tick st
  = update_plot (pos (sound st))
      (set_after_pending (Nat.pred (after_pending st)) st).
Proof. reflexivity. Qed.

Lemma plotted_set_after_pending (st : App) (n : nat) :
  plotted st -> plotted (set_after_pending n st).
Proof. intros H. exact H. Qed.

Lemma relay_inv_set_after_pending (st : App) (n : nat) :
  relay_inv st -> relay_inv (set_after_pending n st).
Proof. intros H. exact H. Qed.

(** A redraw that finds the stop event set is the last one of its loop: it
    does not schedule another, it enables the Play button and leaves the stop
    event set.  Unless paused, it moves the current and the last position to
    the start of the time axis; when paused, it keeps the current position
    and records it as the last position. *)
Theorem tick_when_stopped (st : App) :
  plotted st ->
  stop_event st = true ->
  exists st',
    tick st = Ok tt st'
    /\ after_pending st' = Nat.pred (after_pending st)
    /\ stop_event st' = true
    /\ play_button st' = true
    /\ (pause_event st = false ->
        (pos (sound st') == 0)%Q /\ (last_pos (sound st') == 0)%Q)
    /\ (pause_event st = true ->
        pos (sound st') = pos (sound st)
        /\ last_pos (sound st') = pos (sound st)).
Proof.
  intros Hp Hst. rewrite tick_unfold.
  destruct (update_plot_stopped
              (set_after_pending (Nat.pred (after_pending st)) st)
              (pos (sound st))
              (plotted_set_after_pending st _ Hp) Hst)
    as [st' [E [H1 [H2 [_ [H4 [_ [_ [_ [H8 [H9 _]]]]]]]]]]].
  exists st'. split; [exact E|]. split; [exact H1|].
  split; [exact H2|]. split; [exact H4|]. split.
  - intros H. destruct (H8 H) as [A [B _]]. split; assumption.
  - exact H9.
Qed.

Lemma tick_when_stopped_witness :
  plotted demo_stopping
  /\ enabled Tick demo_stopping = true
  /\ exists st',
       tick demo_stopping = Ok tt st'
       /\ after_pending st' = Nat.pred (after_pending demo_stopping)
       /\ stop_event st' = true
       /\ play_button st' = true
       /\ (pause_event demo_stopping = false ->
           (pos (sound st') == 0)%Q /\ (last_pos (sound st') == 0)%Q)
       /\ (pause_event demo_stopping = true ->
           pos (sound st') = pos (sound demo_stopping)
           /\ last_pos (sound st') = pos (sound demo_stopping)).
Proof.
  assert (P : plotted demo_stopping).
  { eexists. eexists. eexists.
    split; [vm_compute; reflexivity|].
    split; [reflexivity|vm_compute; reflexivity]. }
  split; [exact P|]. split; [vm_compute; reflexivity|].
  refine (tick_when_stopped demo_stopping P _).
  vm_compute. reflexivity.
Defined.

(** A redraw while playing schedules the next one, records the position it
    found as the last position, and shows the value waiting in the relay
    (taking it out) or, with an empty relay, the same position as before.  It
    sets the stop event exactly when the newest thread is not alive. *)
Theorem tick_when_playing (st : App) :
  plotted st ->
  relay_inv st ->
  stop_event st = false ->
  pause_event st = false ->
  exists st',
    tick st = Ok tt st'
    /\ after_pending st' = S (Nat.pred (after_pending st))
    /\ last_pos (sound st') = pos (sound st)
    /\ (LifoQueue.items (queue st) = [] -> pos (sound st') = pos (sound st))
    /\ (forall v, LifoQueue.items (queue st) = [v] -> pos (sound st') = v)
    /\ LifoQueue.items (queue st') = []
    /\ label_time st' = pos (sound st')
    /\ stop_event st' = negb (play_thread_active st).
Proof.
  intros Hp Hr Hst Hpa. rewrite tick_unfold.
  destruct (update_plot_playing
              (set_after_pending (Nat.pred (after_pending st)) st)
              (pos (sound st))
              (plotted_set_after_pending st _ Hp)
              (relay_inv_set_after_pending st _ Hr) Hst Hpa)
    as [st' [E [H1 [H2 [H3 [H4 [H5 [H6 [_ [_ [H9 _]]]]]]]]]]].
  exists st'. repeat (split; [assumption|]). exact H9.
Qed.

Lemma tick_when_playing_witness :
  plotted demo_playing
  /\ relay_inv demo_playing
  /\ LifoQueue.items (queue demo_playing) = [(4 # 2)%Q]
  /\ exists st',
       tick demo_playing = Ok tt st'
       /\ after_pending st' = S (Nat.pred (after_pending demo_playing))
       /\ last_pos (sound st') = pos (sound demo_playing)
       /\ (LifoQueue.items (queue demo_playing) = [] ->
           pos (sound st') = pos (sound demo_playing))
       /\ (forall v, LifoQueue.items (queue demo_playing) = [v] ->
                     pos (sound st') = v)
       /\ LifoQueue.items (queue st') = []
       /\ label_time st' = pos (sound st')
       /\ stop_event st' = negb (play_thread_active demo_playing).
Proof.
  assert (P : plotted demo_playing).
  { eexists. eexists. eexists.
    split; [vm_compute; reflexivity|].
    split; [reflexivity|vm_compute; reflexivity]. }
  assert (R : relay_inv demo_playing).
  { split; [vm_compute; reflexivity|]. vm_compute. apply le_n. }
  split; [exact P|]. split; [exact R|]. split; [vm_compute; reflexivity|].
  refine (tick_when_playing demo_playing P R _ _).
  - vm_compute. reflexivity.
  - vm_compute. reflexivity.
Defined.

(** ** The worker and the redraw loop together *)

(** The state after a callback that publishes. *)
Lemma callback_publishes_state (st : App) (i : nat) (frames : Z) (w : AsyncPlay) :
  relay_inv st ->
  nth_error (threads st) i = Some w ->
  frames <= len (t_data w) - current_frame w ->
  t_fs w <> 0 ->
  callback i frames st
  = Ok tt
      (update_thread i
         (with_frame
            (with_time w (inject_Z (current_frame w) / inject_Z (t_fs w))%Q)
            (current_frame w + frames))
         (update_thread i
            (with_time w (inject_Z (current_frame w) / inject_Z (t_fs w))%Q)
            (set_queue
               (LifoQueue.mk 1
                  [(inject_Z (current_frame w) / inject_Z (t_fs w))%Q])
               st))).
Proof.
  intros [Hm Hl] Hw Hfr Hfs.
  destruct st as [pe se [mx it] [p lp mk] d fs ta ln th ap lt lm pb pab sb dl].
  simpl in Hm, Hl, Hw. subst mx.
  assert (Emin : Z.min (len (t_data w) - current_frame w) frames = frames)
    by (apply Z.min_r; exact Hfr).
  assert (Elt : (frames <? frames) = false) by (apply Z.ltb_irrefl).
  assert (Efs : (t_fs w =? 0) = false) by (apply Z.eqb_neq; exact Hfs).
  destruct it as [|a [|b it]]; [| |simpl in Hl; lia].
  all: exec; rewrite Hw; exec; rewrite Emin, Elt, Efs; exec.
  all: repeat (rewrite (nth_error_set_nth th i _ w Hw); exec).
  all: reflexivity.
Qed.

(** The state after a callback that runs out of frames. *)
Lemma exhausted_callback_state (st : App) (i : nat) (frames : Z) (w : AsyncPlay) :
  nth_error (threads st) i = Some w ->
  len (t_data w) - current_frame w < frames ->
  callback i frames st
  = Ok tt (set_stop_event true
             (update_thread i (with_status w (alive w) false) st)).
Proof.
  intros Hw Hlt.
  destruct st as [pe se q [p lp mk] d fs ta ln th ap lt lm pb pab sb dl].
  simpl in Hw.
  assert (E : (Z.min (len (t_data w) - current_frame w) frames <? frames) = true)
    by (apply Z.ltb_lt; lia).
  exec. rewrite Hw. exec. rewrite E. exec. reflexivity.
Qed.

(** The time a callback publishes is the position the next redraw shows:
    after a publishing callback of a playing session, the redraw puts
    [current_frame / fs] in the current position and on the time label,
    records the previous position as the last position, empties the relay
    and schedules the next redraw. *)
Theorem published_position_is_shown (st : App) (i : nat) (frames : Z)
        (w : AsyncPlay) :
  plotted st ->
  relay_inv st ->
  stop_event st = false ->
  pause_event st = false ->
  nth_error (threads st) i = Some w ->
  frames <= len (t_data w) - current_frame w ->
  t_fs w <> 0 ->
  exists st1 st2,
    callback i frames st = Ok tt st1
    /\ tick st1 = Ok tt st2
    /\ pos (sound st2) = (inject_Z (current_frame w) / inject_Z (t_fs w))%Q
    /\ label_time st2 = (inject_Z (current_frame w) / inject_Z (t_fs w))%Q
    /\ last_pos (sound st2) = pos (sound st)
    /\ LifoQueue.items (queue st2) = []
    /\ enabled Tick st2 = true.
Proof.
  intros Hp Hr Hst Hpa Hw Hfr Hfs.
  pose proof (callback_publishes_state st i frames w Hr Hw Hfr Hfs) as E1.
  match type of E1 with _ = Ok tt ?s => set (st1 := s) in * end.
  assert (Hp1 : plotted st1) by exact Hp.
  assert (Hr1 : relay_inv st1) by (split; [reflexivity|simpl; lia]).
  destruct (update_plot_playing
              (set_after_pending (Nat.pred (after_pending st1)) st1)
              (pos (sound st1)) Hp1 Hr1 Hst Hpa)
    as [st2 [E [H1 [H2 [_ [H4 [H5 [H6 _]]]]]]]].
  assert (Hv : pos (sound st2)
               = (inject_Z (current_frame w) / inject_Z (t_fs w))%Q)
    by (apply H4; reflexivity).
  exists st1, st2. split; [exact E1|].
  rewrite tick_unfold. split; [exact E|].
  split; [exact Hv|]. split; [rewrite H6; exact Hv|].
  split; [exact H2|]. split; [exact H5|].
  simpl. rewrite H1. reflexivity.
Qed.

Lemma published_position_is_shown_witness :
  plotted demo_playing
  /\ relay_inv demo_playing
  /\ pos (sound demo_playing) = (2 # 2)%Q
  /\ nth_error (threads demo_playing) 0
     = Some {| current_frame := 5; t_data := demo_data; t_fs := 2;
               curr_time := (inject_Z 4 / inject_Z 2)%Q;
               alive := true; streaming := true |}
  /\ exists st1 st2,
       callback 0 1 demo_playing = Ok tt st1
       /\ tick st1 = Ok tt st2
       /\ pos (sound st2) = (inject_Z 5 / inject_Z 2)%Q
       /\ label_time st2 = (inject_Z 5 / inject_Z 2)%Q
       /\ last_pos (sound st2) = pos (sound demo_playing)
       /\ LifoQueue.items (queue st2) = []
       /\ enabled Tick st2 = true.
Proof.
  assert (P : plotted demo_playing).
  { eexists. eexists. eexists.
    split; [vm_compute; reflexivity|].
    split; [reflexivity|vm_compute; reflexivity]. }
  assert (R : relay_inv demo_playing).
  { split; [vm_compute; reflexivity|]. vm_compute. apply le_n. }
  assert (Hw : nth_error (threads demo_playing) 0
               = Some {| current_frame := 5; t_data := demo_data; t_fs := 2;
                         curr_time := (inject_Z 4 / inject_Z 2)%Q;
                         alive := true; streaming := true |})
    by (vm_compute; reflexivity).
  split; [exact P|]. split; [exact R|]. split; [vm_compute; reflexivity|].
  split; [exact Hw|].
  refine (published_position_is_shown demo_playing 0 1 _ P R _ _ Hw _ _).
  - vm_compute. reflexivity.
  - vm_compute. reflexivity.
  - vm_compute. discriminate.
  - discriminate.
Defined.

(** Playing to the end: when a callback of an unpaused session runs out of
    frames, the next redraw finds the stop event set, puts the current and
    the last position at 0, enables Play and does not schedule another
    redraw. *)
Theorem exhausted_playback_stops (st : App) (i : nat) (frames : Z)
        (w : AsyncPlay) :
  plotted st ->
  pause_event st = false ->
  nth_error (threads st) i = Some w ->
  len (t_data w) - current_frame w < frames ->
  exists st1 st2,
    callback i frames st = Ok tt st1
    /\ tick st1 = Ok tt st2
    /\ stop_event st2 = true
    /\ (pos (sound st2) == 0)%Q
    /\ (last_pos (sound st2) == 0)%Q
    /\ play_button st2 = true
    /\ after_pending st2 = Nat.pred (after_pending st).
Proof.
  intros Hp Hpa Hw Hlt.
  pose proof (exhausted_callback_state st i frames w Hw Hlt) as E1.
  match type of E1 with _ = Ok tt ?s => set (st1 := s) in * end.
  assert (Hp1 : plotted st1) by exact Hp.
  destruct (update_plot_stopped
              (set_after_pending (Nat.pred (after_pending st1)) st1)
              (pos (sound st1)) Hp1 eq_refl)
    as [st2 [E [H1 [H2 [_ [H4 [_ [_ [_ [H8 _]]]]]]]]]].
  exists st1, st2. split; [exact E1|].
  rewrite tick_unfold. split; [exact E|].
  destruct (H8 Hpa) as [A [B _]].
  split; [exact H2|]. split; [exact A|]. split; [exact B|].
  split; [exact H4|]. exact H1.
Qed.

Lemma exhausted_playback_stops_witness :
  plotted demo_playing
  /\ nth_error (threads demo_playing) 0
     = Some {| current_frame := 5; t_data := demo_data; t_fs := 2;
               curr_time := (inject_Z 4 / inject_Z 2)%Q;
               alive := true; streaming := true |}
  /\ exists st1 st2,
       callback 0 2 demo_playing = Ok tt st1
       /\ tick st1 = Ok tt st2
       /\ stop_event st2 = true
       /\ (pos (sound st2) == 0)%Q
       /\ (last_pos (sound st2) == 0)%Q
       /\ play_button st2 = true
       /\ after_pending st2 = Nat.pred (after_pending demo_playing).
Proof.
  assert (P : plotted demo_playing).
  { eexists. eexists. eexists.
    split; [vm_compute; reflexivity|].
    split; [reflexivity|vm_compute; reflexivity]. }
  assert (Hw : nth_error (threads demo_playing) 0
               = Some {| current_frame := 5; t_data := demo_data; t_fs := 2;
                         curr_time := (inject_Z 4 / inject_Z 2)%Q;
                         alive := true; streaming := true |})
    by (vm_compute; reflexivity).
  split; [exact P|]. split; [exact Hw|].
  refine (exhausted_playback_stops demo_playing 0 2 _ P _ Hw _).
  - vm_compute. reflexivity.
  - vm_compute. reflexivity.
Defined.

(** A worker that died is noticed by the redraw loop: with the newest thread
    not alive during playback, the next redraw sets the stop event and still
    schedules one more redraw, which puts both positions at 0, enables Play
    and ends the loop. *)
Theorem dead_worker_detected (st : App) :
  plotted st ->
  relay_inv st ->
  stop_event st = false ->
  pause_event st = false ->
  play_thread_active st = false ->
  exists st1 st2,
    tick st = Ok tt st1
    /\ stop_event st1 = true
    /\ enabled Tick st1 = true
    /\ tick st1 = Ok tt st2
    /\ stop_event st2 = true
    /\ (pos (sound st2) == 0)%Q
    /\ (last_pos (sound st2) == 0)%Q
    /\ play_button st2 = true
    /\ after_pending st2 = Nat.pred (after_pending st).
Proof.
  intros Hp Hr Hst Hpa Hdead.
  destruct (update_plot_playing
              (set_after_pending (Nat.pred (after_pending st)) st)
              (pos (sound st))
              (plotted_set_after_pending st _ Hp)
              (relay_inv_set_after_pending st _ Hr) Hst Hpa)
    as [st1 [E1 [A1 [_ [_ [_ [_ [_ [_ [_ [A9 [A10 [_ P1]]]]]]]]]]]]].
  assert (S1 : stop_event st1 = true).
  { rewrite A9.
    change (play_thread_active
              (set_after_pending (Nat.pred (after_pending st)) st))
      with (play_thread_active st).
    rewrite Hdead. reflexivity. }
  destruct (update_plot_stopped
              (set_after_pending (Nat.pred (after_pending st1)) st1)
              (pos (sound st1))
              (plotted_set_after_pending st1 _ P1) S1)
    as [st2 [E2 [B1 [B2 [_ [B4 [_ [_ [_ [B8 _]]]]]]]]]].
  destruct (B8 A10) as [C1 [C2 _]].
  exists st1, st2.
  split; [rewrite tick_unfold; exact E1|].
  split; [exact S1|].
  split; [simpl; rewrite A1; reflexivity|].
  split; [rewrite tick_unfold; exact E2|].
  split; [exact B2|]. split; [exact C1|]. split; [exact C2|].
  split; [exact B4|].
  rewrite B1. simpl. rewrite A1. reflexivity.
Qed.

Lemma dead_worker_detected_witness :
  plotted demo_dead
  /\ relay_inv demo_dead
  /\ enabled Tick demo_dead = true
  /\ exists st1 st2,
       tick demo_dead = Ok tt st1
       /\ stop_event st1 = true
       /\ enabled Tick st1 = true
       /\ tick st1 = Ok tt st2
       /\ stop_event st2 = true
       /\ (pos (sound st2) == 0)%Q
       /\ (last_pos (sound st2) == 0)%Q
       /\ play_button st2 = true
       /\ after_pending st2 = Nat.pred (after_pending demo_dead).
Proof.
  assert (P : plotted demo_dead).
  { eexists. eexists. eexists.
    split; [vm_compute; reflexivity|].
    split; [reflexivity|vm_compute; reflexivity]. }
  assert (R : relay_inv demo_dead).
  { split; [vm_compute; reflexivity|]. vm_compute. apply le_S, le_n. }
  split; [exact P|]. split; [exact R|]. split; [vm_compute; reflexivity|].
  refine (dead_worker_detected demo_dead P R _ _ _).
  - vm_compute. reflexivity.
  - vm_compute. reflexivity.
  - vm_compute. reflexivity.
Defined.

(** ** Loading, again *)

(** A successful load is the preparation of the window followed by
    [update_plot(0)]. *)
Lemma load_reaches_update_plot (st : App) (sf_read : string -> SfRead)
      (file_path : string) (d : ndarray) (fs : Z) :
  file_path <> EmptyString ->
  sf_read file_path = SfData d fs ->
  any d = true ->
  fs <> 0 ->
  extract_audio_data sf_read file_path st
  = update_plot 0%Q (load_prepared d fs st).
Proof.
  intros Hp Hr Hany Hfs.
  apply String.eqb_neq in Hp. apply Z.eqb_neq in Hfs.
  destruct d as [|f d]; [discriminate Hany|].
  destruct (last_item_cons
              (inject_Z 0 * ((duration (f :: d) fs - 0)
                             / inject_Z (Z.of_nat (S (List.length d)))) + 0)%Q
              (map (fun i => (inject_Z (Z.of_nat i)
                              * ((duration (f :: d) fs - 0)
                                 / inject_Z (Z.of_nat (S (List.length d)))) + 0)%Q)
                   (seq 1 (List.length d)))) as [hi Hhi].
  destruct st as [pe se q [p lp mk] dd ff ta ln th ap lt lm pb pab sb dl].
  unfold load_prepared.
  exec. rewrite Hp. exec. rewrite Hr. exec. rewrite Hany, Hfs. exec.
  rewrite ?Hfs. exec.
  change (List.length (f :: d)) with (S (List.length d)).
  change (inject_Z (len (f :: d)) / inject_Z fs)%Q with (duration (f :: d) fs).
  rewrite linspace_S.
  change (first (?a :: ?b)) with (Some a). exec.
  rewrite Hhi. exec.
  reflexivity.
Qed.

Lemma load_prepared_plotted (d : ndarray) (fs : Z) (st : App) :
  d <> [] -> plotted (load_prepared d fs st).
Proof.
  intros Hd. destruct d as [|f d]; [contradiction|].
  unfold plotted. simpl time_axis. simpl lines.
  change (List.length (f :: d)) with (S (List.length d)).
  rewrite linspace_S.
  do 3 eexists. split; [reflexivity|]. split; [|reflexivity].
  unfold Qeq. simpl. lia.
Qed.



(** Loading a file never halts a worker: when the newest playback thread is
    alive, a successful load leaves that thread running on the data and the
    sample rate it was started with, with the stop event clear, while the
    window now holds the new file. *)
Theorem load_does_not_halt_worker (st : App) (sf_read : string -> SfRead)
        (file_path : string) (d : ndarray) (fs : Z) (w : AsyncPlay) :
  relay_inv st ->
  file_path <> EmptyString ->
  sf_read file_path = SfData d fs ->
  any d = true ->
  fs <> 0 ->
  play_thread st = Some w ->
  alive w = true ->
  exists st',
    open_file sf_read file_path st = Ok tt st'
    /\ data st' = Some d
    /\ play_thread st' = Some w
    /\ stop_event st' = false
    /\ worker_running st' = true.
Proof.
  intros Hr Hp Hrd Hany Hfs Hw Ha.
  assert (Hd : d <> []) by (intros E; subst d; discriminate Hany).
  destruct (extract_audio_data_loads st sf_read file_path d fs Hp Hrd Hany Hfs)
    as [st' [E [A1 [_ [_ [_ [_ [_ [_ [_ [_ [A10 _]]]]]]]]]]]].
  pose proof (load_reaches_update_plot st sf_read file_path d fs
                Hp Hrd Hany Hfs) as E'.
  destruct (update_plot_playing (load_prepared d fs st) 0%Q
              (load_prepared_plotted d fs st Hd) Hr eq_refl eq_refl)
    as [st2 [E2 [_ [_ [_ [_ [_ [_ [_ [_ [B9 _]]]]]]]]]]].
  assert (Est : st2 = st') by congruence. subst st2.
  assert (Hact : play_thread_active (load_prepared d fs st) = true).
  { change (play_thread_active (load_prepared d fs st))
      with (play_thread_active st).
    unfold play_thread_active. rewrite Hw. exact Ha. }
  rewrite Hact in B9. simpl in B9.
  assert (Hpt : play_thread st' = Some w).
  { unfold play_thread in *. rewrite A10. exact Hw. }
  exists st'. split.
  - unfold open_file. apply String.eqb_neq in Hp. rewrite Hp. exact E.
  - split; [exact A1|]. split; [exact Hpt|]. split; [exact B9|].
    unfold worker_running. rewrite Hpt, Ha, B9. reflexivity.
Qed.

Lemma load_does_not_halt_worker_witness :
  relay_inv demo_playing
  /\ play_thread demo_playing
     = Some {| current_frame := 5; t_data := demo_data; t_fs := 2;
               curr_time := (inject_Z 4 / inject_Z 2)%Q;
               alive := true; streaming := true |}
  /\ exists st',
       open_file demo_files "tone.wav" demo_playing = Ok tt st'
       /\ data st' = Some demo_data
       /\ play_thread st'
          = Some {| current_frame := 5; t_data := demo_data; t_fs := 2;
                    curr_time := (inject_Z 4 / inject_Z 2)%Q;
                    alive := true; streaming := true |}
       /\ stop_event st' = false
       /\ worker_running st' = true.
Proof.
  assert (R : relay_inv demo_playing).
  { split; [vm_compute; reflexivity|]. vm_compute. apply le_n. }
  assert (Hw : play_thread demo_playing
               = Some {| current_frame := 5; t_data := demo_data; t_fs := 2;
                         curr_time := (inject_Z 4 / inject_Z 2)%Q;
                         alive := true; streaming := true |})
    by (vm_compute; reflexivity).
  split; [exact R|]. split; [exact Hw|].
  refine (load_does_not_halt_worker demo_playing demo_files "tone.wav"
            demo_data 2 _ R _ _ _ _ Hw _).
  - discriminate.
  - reflexivity.
  - reflexivity.
  - discriminate.
  - reflexivity.
Defined.

(** A load that is not accepted (cancelled dialog, unreadable file, samples
    all zero or sample rate zero) changes nothing but, when the file was
    decoded, [data] and [samplerate]: positions, events, plot, relay,
    threads, buttons, dialogs and scheduled redraws are as before. *)
Theorem unaccepted_load_frame (st : App) (sf_read : string -> SfRead)
        (file_path : string) :
  (forall d fs, sf_read file_path = SfData d fs ->
                any d && negb (fs =? 0) = false) ->
  let st' := state_of (open_file sf_read file_path st) in
  sound st' = sound st
  /\ pause_event st' = pause_event st
  /\ stop_event st' = stop_event st
  /\ time_axis st' = time_axis st
  /\ lines st' = lines st
  /\ queue st' = queue st
  /\ threads st' = threads st
  /\ after_pending st' = after_pending st
  /\ dialogs st' = dialogs st
  /\ play_button st' = play_button st
  /\ pause_button st' = pause_button st
  /\ stop_button st' = stop_button st
  /\ (sf_read file_path = SfRaise -> st' = st)
  /\ (file_path = EmptyString -> st' = st).
Proof.
  intros Hbad. cbv zeta. unfold open_file.
  destruct (String.eqb file_path EmptyString) eqn:Hpath; cbn [negb].
  - simpl. repeat split; reflexivity.
  - assert (Hne : file_path <> EmptyString) by (apply String.eqb_neq; exact Hpath).
    destruct (sf_read file_path) as [|d fs] eqn:Hr.
    + rewrite (proj1 (extract_audio_data_unreadable st sf_read file_path Hr)).
      repeat split; reflexivity.
    + rewrite (extract_audio_data_rejected st sf_read file_path d fs
                 Hne Hr (Hbad d fs eq_refl)).
      destruct st. simpl.
      repeat (split; [reflexivity|]). split; [discriminate|].
      intros H. contradiction.
Qed.

Lemma unaccepted_load_frame_witness :
  (forall d fs, demo_files "silence.wav" = SfData d fs ->
                any d && negb (fs =? 0) = false)
  /\ let st' := state_of (open_file demo_files "silence.wav" demo_marked) in
     sound st' = sound demo_marked
     /\ pause_event st' = pause_event demo_marked
     /\ stop_event st' = stop_event demo_marked
     /\ time_axis st' = time_axis demo_marked
     /\ lines st' = lines demo_marked
     /\ queue st' = queue demo_marked
     /\ threads st' = threads demo_marked
     /\ after_pending st' = after_pending demo_marked
     /\ dialogs st' = dialogs demo_marked
     /\ play_button st' = play_button demo_marked
     /\ pause_button st' = pause_button demo_marked
     /\ stop_button st' = stop_button demo_marked
     /\ (demo_files "silence.wav" = SfRaise -> st' = demo_marked)
     /\ ("silence.wav"%string = EmptyString -> st' = demo_marked).
Proof.
  assert (H : forall d fs, demo_files "silence.wav" = SfData d fs ->
                           any d && negb (fs =? 0) = false).
  { intros d fs E. vm_compute in E. injection E as <- <-. reflexivity. }
  split; [exact H|].
  exact (unaccepted_load_frame demo_marked demo_files "silence.wav" H).
Defined.

(** ** The time axis *)

Lemma nth_error_map_seq {A : Type} (f : nat -> A) :
  forall (n s i : nat),
    (i < n)%nat -> nth_error (map f (seq s n)) i = Some (f (s + i)%nat).
Proof.
  induction n as [|n IH]; intros s i H; [lia|].
  destruct i as [|i]; simpl.
  - rewrite Nat.add_0_r. reflexivity.
  - rewrite IH by lia. f_equal. f_equal. lia.
Qed.

Lemma linspace_length (start stop : Q) (n : nat) :
  List.length (linspace start stop n) = n.
Proof. unfold linspace. rewrite length_map, length_seq. reflexivity. Qed.

Lemma linspace_nth (start stop : Q) (n i : nat) :
  (i < n)%nat ->
  nth_error (linspace start stop n) i
  = Some (inject_Z (Z.of_nat i) * ((stop - start) / inject_Z (Z.of_nat n)) + start)%Q.
Proof.
  intros H. unfold linspace. rewrite (nth_error_map_seq _ n 0 i H).
  reflexivity.
Qed.

Lemma linspace_last (start stop : Q) (m : nat) :
  last_item (linspace start stop (S m))
  = Some (inject_Z (Z.of_nat m)
          * ((stop - start) / inject_Z (Z.of_nat (S m))) + start)%Q.
Proof.
  unfold linspace, last_item. rewrite seq_S, map_app, rev_app_distr.
  reflexivity.
Qed.

Lemma inject_Z_nonzero (z : Z) : z <> 0 -> ~ (inject_Z z == 0)%Q.
Proof. intros H E. apply H. unfold Qeq in E. simpl in E. lia. Qed.

(** The i-th point of the time axis of [n] frames at rate [fs] is [i / fs]. *)
Lemma time_point (n : nat) (fs : Z) (i : nat) :
  n <> O -> fs <> 0 ->
  (inject_Z (Z.of_nat i)
   * ((inject_Z (Z.of_nat n) / inject_Z fs - 0) / inject_Z (Z.of_nat n)) + 0
   == inject_Z (Z.of_nat i) / inject_Z fs)%Q.
Proof.
  intros Hn Hfs. field.
  split; apply inject_Z_nonzero; first [exact Hfs | lia].
Qed.

(** [plot_data] on [n > 0] frames at a non-zero rate [fs] returns, and the
    time axis it makes has one point per frame, the i-th being [i / fs]: it
    starts at 0 and ends one sample period before the duration.  The cursor
    and marker lines start at 0. *)
Theorem plot_data_time_axis (st : App) (d : ndarray) (fs : Z) :
  data st = Some d ->
  samplerate st = Some fs ->
  d <> [] ->
  fs <> 0 ->
  exists st' t,
    plot_data st = Ok tt st'
    /\ time_axis st' = Some t
    /\ lines st' = Some (0%Q, Some 0%Q)
    /\ List.length t = List.length d
    /\ (forall i : nat,
           (i < List.length d)%nat ->
           exists x, nth_error t i = Some x
                     /\ (x == inject_Z (Z.of_nat i) / inject_Z fs)%Q)
    /\ (exists lo, first t = Some lo /\ (lo == 0)%Q)
    /\ (exists hi, last_item t = Some hi
                   /\ (hi == duration d fs - 1 / inject_Z fs)%Q).
Proof.
  intros Hd Hfs Hne Hz.
  assert (Ez : (fs =? 0) = false) by (apply Z.eqb_neq; exact Hz).
  destruct d as [|f d]; [contradiction|].
  destruct st as [pe se q [p lp mk] dd ff ta ln th ap lt lm pb pab sb dl].
  simpl in Hd, Hfs. subst dd ff.
  exists (set_lines (0%Q, Some 0%Q)
            (set_time_axis
               (linspace 0 (duration (f :: d) fs) (List.length (f :: d)))
               {| pause_event := pe; stop_event := se; queue := q;
                  sound := {| pos := p; last_pos := lp; marker_pos := mk |};
                  data := Some (f :: d); samplerate := Some fs;
                  time_axis := ta; lines := ln; threads := th;
                  after_pending := ap; label_time := lt; label_marker := lm;
                  play_button := pb; pause_button := pab; stop_button := sb;
                  dialogs := dl |})),
         (linspace 0 (duration (f :: d) fs) (List.length (f :: d))).
  split.
  - exec. rewrite Ez. exec.
    change (inject_Z (len (f :: d)) / inject_Z fs)%Q with (duration (f :: d) fs).
    change (List.length (f :: d)) with (S (List.length d)).
    rewrite (linspace_last 0 (duration (f :: d) fs) (List.length d)).
    rewrite linspace_S.
    change (first (?a :: ?b)) with (Some a). exec.
    reflexivity.
  - split; [reflexivity|]. split; [reflexivity|].
    split; [apply linspace_length|]. split; [|split].
    + intros i Hi. eexists. split; [apply linspace_nth; exact Hi|].
      unfold duration, len. apply time_point; [simpl; lia|exact Hz].
    + change (List.length (f :: d)) with (S (List.length d)).
      rewrite linspace_S. eexists. split; [reflexivity|].
      unfold Qeq. simpl. lia.
    + change (List.length (f :: d)) with (S (List.length d)).
      rewrite linspace_last. eexists. split; [reflexivity|].
      unfold duration, len.
      change (List.length (f :: d)) with (S (List.length d)).
      assert (HM : (inject_Z (Z.of_nat (List.length d))
                    == inject_Z (Z.of_nat (S (List.length d))) - 1)%Q).
      { rewrite Nat2Z.inj_succ. unfold Z.succ. rewrite inject_Z_plus.
        change (inject_Z 1) with 1%Q. ring. }
      rewrite HM. field.
      split; apply inject_Z_nonzero; first [exact Hz | lia].
Qed.

Lemma plot_data_time_axis_witness :
  data demo_loaded = Some demo_data
  /\ samplerate demo_loaded = Some 2
  /\ exists st' t,
       plot_data demo_loaded = Ok tt st'
       /\ time_axis st' = Some t
       /\ lines st' = Some (0%Q, Some 0%Q)
       /\ List.length t = List.length demo_data
       /\ (forall i : nat,
              (i < List.length demo_data)%nat ->
              exists x, nth_error t i = Some x
                        /\ (x == inject_Z (Z.of_nat i) / inject_Z 2)%Q)
       /\ (exists lo, first t = Some lo /\ (lo == 0)%Q)
       /\ (exists hi, last_item t = Some hi
                      /\ (hi == duration demo_data 2 - 1 / inject_Z 2)%Q).
Proof.
  assert (Hd : data demo_loaded = Some demo_data) by (vm_compute; reflexivity).
  assert (Hf : samplerate demo_loaded = Some 2) by (vm_compute; reflexivity).
  split; [exact Hd|]. split; [exact Hf|].
  refine (plot_data_time_axis demo_loaded demo_data 2 Hd Hf _ _); discriminate.
Defined.

(** ** Seeking *)

(** The state after an in-range left click. *)
Lemma left_click_state (st : App) (x y lo hi : Q) (t : list Q)
      (l : Q * option Q) :
  time_axis st = Some t -> first t = Some lo -> last_item t = Some hi ->
  lines st = Some l ->
  (lo <= x <= hi)%Q ->
  on_mouse_click {| xdata := Some x; ydata := Some y; button := LEFT |} st
  = Ok tt (set_label_time x
             (set_lines (x, marker_pos (sound st))
                (set_stop_event true
                   (set_pause_event true (set_last_pos x st))))).
Proof.
  intros Ht Hlo Hhi Hl [H1 H2].
  apply Qle_bool_iff in H1. apply Qle_bool_iff in H2.
  destruct st as [pe se q [p lp mk] d fs ta ln th ap lt lm pb pab sb dl].
  simpl in Ht, Hl. subst ta ln.
  exec. rewrite Hlo. exec. rewrite H1. exec. rewrite Hhi. exec.
  rewrite H2. exec. reflexivity.
Qed.

(** Seek and play: on a file of [n] frames at rate [fs > 0] with its own
    time axis, a left click at a time [x] between 0 and the last point of
    the axis followed by Play starts a thread at frame [int(x * fs)], and
    that frame lies inside the buffer. *)
Theorem seek_then_play_starts_inside (st : App) (d : ndarray) (fs : Z)
        (x y : Q) (l : Q * option Q) :
  data st = Some d ->
  samplerate st = Some fs ->
  time_axis st = Some (linspace 0 (duration d fs) (List.length d)) ->
  lines st = Some l ->
  d <> [] ->
  0 < fs ->
  (0 <= x)%Q ->
  (x <= duration d fs - 1 / inject_Z fs)%Q ->
  exists st1 st2,
    on_mouse_click {| xdata := Some x; ydata := Some y; button := LEFT |} st
    = Ok tt st1
    /\ click_play st1 = Ok tt st2
    /\ play_thread st2 = Some (AsyncPlay_start d fs x)
    /\ 0 <= current_frame (AsyncPlay_start d fs x) < len d.
Proof.
  intros Hd Hfs Ht Hl Hne Hpos Hx0 Hx1.
  assert (Hz : fs <> 0) by lia.
  destruct d as [|f d]; [contradiction|].
  change (List.length (f :: d)) with (S (List.length d)) in Ht.
  pose proof (linspace_last 0 (duration (f :: d) fs) (List.length d)) as Hlast.
  pose proof (linspace_S 0 (duration (f :: d) fs) (List.length d)) as Hcons.
  assert (Hhi : (inject_Z (Z.of_nat (List.length d))
                 * ((duration (f :: d) fs - 0)
                    / inject_Z (Z.of_nat (S (List.length d)))) + 0
                 == duration (f :: d) fs - 1 / inject_Z fs)%Q).
  { unfold duration, len.
    change (List.length (f :: d)) with (S (List.length d)).
    assert (HM : (inject_Z (Z.of_nat (List.length d))
                  == inject_Z (Z.of_nat (S (List.length d))) - 1)%Q).
    { rewrite Nat2Z.inj_succ. unfold Z.succ. rewrite inject_Z_plus.
      change (inject_Z 1) with 1%Q. ring. }
    rewrite HM. field.
    split; apply inject_Z_nonzero; first [exact Hz | lia]. }
  assert (Hlo : (inject_Z 0
                 * ((duration (f :: d) fs - 0)
                    / inject_Z (Z.of_nat (S (List.length d)))) + 0 == 0)%Q).
  { unfold Qeq. simpl. lia. }
  assert (Hfirst : first (linspace 0 (duration (f :: d) fs) (S (List.length d)))
                   = Some (inject_Z 0
                           * ((duration (f :: d) fs - 0)
                              / inject_Z (Z.of_nat (S (List.length d)))) + 0)%Q).
  { rewrite Hcons. reflexivity. }
  assert (Hrange : (inject_Z 0
                    * ((duration (f :: d) fs - 0)
                       / inject_Z (Z.of_nat (S (List.length d)))) + 0
                    <= x
                    <= inject_Z (Z.of_nat (List.length d))
                       * ((duration (f :: d) fs - 0)
                          / inject_Z (Z.of_nat (S (List.length d)))) + 0)%Q).
  { split; [rewrite Hlo; exact Hx0 | rewrite Hhi; exact Hx1]. }
  pose proof (left_click_state st x y _ _ _ l Ht Hfirst Hlast Hl Hrange) as E1.
  match type of E1 with _ = Ok tt ?s => set (st1 := s) in * end.
  assert (P1 : plotted st1).
  { unfold plotted. change (time_axis st1) with (time_axis st). rewrite Ht.
    rewrite Hcons. do 3 eexists. split; [reflexivity|].
    split; [exact Hlo|reflexivity]. }
  destruct (click_play_starts st1 (f :: d) fs P1 Hd Hfs)
    as [st2 [E2 [Hpt _]]].
  exists st1, st2. split; [exact E1|]. split; [exact E2|].
  split; [exact Hpt|].
  simpl current_frame.
  assert (Hfsq : (0 < inject_Z fs)%Q) by (unfold Qlt; simpl; lia).
  assert (H0 : (0 <= x * inject_Z fs)%Q).
  { apply Qmult_le_0_compat; [exact Hx0|]. apply Qlt_le_weak. exact Hfsq. }
  assert (H1 : (x * inject_Z fs <= inject_Z (len (f :: d) - 1))%Q).
  { assert (E : (inject_Z (len (f :: d) - 1)
                 == (duration (f :: d) fs - 1 / inject_Z fs) * inject_Z fs)%Q).
    { unfold duration. unfold Z.sub. rewrite inject_Z_plus.
      rewrite inject_Z_opp. change (inject_Z 1) with 1%Q. field.
      apply inject_Z_nonzero. exact Hz. }
    rewrite E. apply Qmult_le_compat_r; [exact Hx1|].
    apply Qlt_le_weak. exact Hfsq. }
  rewrite (int_nonneg_floor _ H0).
  pose proof (Qfloor_resp_le _ _ H0) as F0.
  pose proof (Qfloor_resp_le _ _ H1) as F1.
  rewrite Qfloor_Z in F1.
  change (Qfloor 0) with 0 in F0.
  lia.
Qed.

Lemma seek_then_play_starts_inside_witness :
  data demo_playing = Some demo_data
  /\ (0 <= 5 # 2)%Q
  /\ (5 # 2 <= duration demo_data 2 - 1 / inject_Z 2)%Q
  /\ exists st1 st2,
       on_mouse_click (left_click (5 # 2)) demo_playing = Ok tt st1
       /\ click_play st1 = Ok tt st2
       /\ play_thread st2 = Some (AsyncPlay_start demo_data 2 (5 # 2))
       /\ 0 <= current_frame (AsyncPlay_start demo_data 2 (5 # 2))
          < len demo_data.
Proof.
  assert (Hd : data demo_playing = Some demo_data) by (vm_compute; reflexivity).
  split; [exact Hd|]. split; [discriminate|]. split; [discriminate|].
  refine (seek_then_play_starts_inside demo_playing demo_data 2 (5 # 2) 0
            (2 # 2, None) Hd _ _ _ _ _ _ _).
  - vm_compute. reflexivity.
  - vm_compute. reflexivity.
  - vm_compute. reflexivity.
  - discriminate.
  - reflexivity.
  - discriminate.
  - discriminate.
Defined.

(** ** Play and Resume *)

(** Play empties the relay before it starts the thread: the first redraw
    shows the last position, not a value left over from an earlier thread.
    It disables the Play button, schedules a redraw and keeps the earlier
    threads in place behind the new one. *)
Theorem play_discards_relay (st : App) (d : ndarray) (fs : Z) :
  plotted st ->
  data st = Some d ->
  samplerate st = Some fs ->
  exists st1,
    click_play st = Ok tt st1
    /\ LifoQueue.items (queue st1) = []
    /\ pos (sound st1) = last_pos (sound st)
    /\ label_time st1 = last_pos (sound st)
    /\ play_button st1 = false
    /\ after_pending st1 = S (after_pending st)
    /\ threads st1
       = AsyncPlay_start d fs (last_pos (sound st)) :: threads st.
Proof.
  intros [t0 [ts [l [Ht [H0 Hl]]]]] Hd Hfs.
  destruct st as [pe se q [p lp mk] dd ff ta ln th ap lt lm pb pab sb dl].
  simpl in Ht, Hl, Hd, Hfs. subst ta ln dd ff.
  exec. rewrite empty_clear. exec.
  eexists. split; [reflexivity|]. repeat split; reflexivity.
Qed.

Lemma play_discards_relay_witness :
  plotted demo_paused
  /\ LifoQueue.items (queue demo_paused) = [(4 # 2)%Q]
  /\ exists st1,
       click_play demo_paused = Ok tt st1
       /\ LifoQueue.items (queue st1) = []
       /\ pos (sound st1) = last_pos (sound demo_paused)
       /\ label_time st1 = last_pos (sound demo_paused)
       /\ play_button st1 = false
       /\ after_pending st1 = S (after_pending demo_paused)
       /\ threads st1
          = AsyncPlay_start demo_data 2 (last_pos (sound demo_paused))
              :: threads demo_paused.
Proof.
  assert (P : plotted demo_paused).
  { eexists. eexists. eexists.
    split; [vm_compute; reflexivity|].
    split; [reflexivity|vm_compute; reflexivity]. }
  split; [exact P|]. split; [vm_compute; reflexivity|].
  refine (play_discards_relay demo_paused demo_data 2 P _ _).
  - vm_compute. reflexivity.
  - vm_compute. reflexivity.
Defined.

(** Resume does not empty the relay: when a value published before the
    pause is still unread, the redraw that Resume runs shows that value as
    the current position, while the new thread starts at the last
    position. *)
Theorem resume_shows_relay_value (st : App) (d : ndarray) (fs : Z) (v : Q) :
  plotted st ->
  data st = Some d ->
  samplerate st = Some fs ->
  pause_event st = true ->
  queue st = LifoQueue.mk 1 [v] ->
  exists st1,
    click_pause st = Ok tt st1
    /\ pos (sound st1) = v
    /\ last_pos (sound st1) = last_pos (sound st)
    /\ play_thread st1 = Some (AsyncPlay_start d fs (last_pos (sound st)))
    /\ LifoQueue.items (queue st1) = []
    /\ stop_event st1 = false
    /\ pause_event st1 = false
    /\ after_pending st1 = S (after_pending st).
Proof.
  intros [t0 [ts [l [Ht [H0 Hl]]]]] Hd Hfs Hpa Hq.
  destruct st as [pe se q [p lp mk] dd ff ta ln th ap lt lm pb pab sb dl].
  simpl in Ht, Hl, Hd, Hfs, Hpa, Hq. subst ta ln dd ff pe q.
  exec.
  eexists. split; [reflexivity|]. repeat split; reflexivity.
Qed.

Lemma resume_shows_relay_value_witness :
  plotted demo_paused
  /\ pos (sound demo_paused) = (2 # 2)%Q
  /\ last_pos (sound demo_paused) = (2 # 2)%Q
  /\ exists st1,
       click_pause demo_paused = Ok tt st1
       /\ pos (sound st1) = (4 # 2)%Q
       /\ last_pos (sound st1) = last_pos (sound demo_paused)
       /\ play_thread st1
          = Some (AsyncPlay_start demo_data 2 (last_pos (sound demo_paused)))
       /\ LifoQueue.items (queue st1) = []
       /\ stop_event st1 = false
       /\ pause_event st1 = false
       /\ after_pending st1 = S (after_pending demo_paused).
Proof.
  assert (P : plotted demo_paused).
  { eexists. eexists. eexists.
    split; [vm_compute; reflexivity|].
    split; [reflexivity|vm_compute; reflexivity]. }
  split; [exact P|]. split; [vm_compute; reflexivity|].
  split; [vm_compute; reflexivity|].
  refine (resume_shows_relay_value demo_paused demo_data 2 (4 # 2) P _ _ _ _).
  - vm_compute. reflexivity.
  - vm_compute. reflexivity.
  - vm_compute. reflexivity.
  - vm_compute. reflexivity.
Defined.

(** ** Invariants of the running application *)

Lemma step_keeps_stop_under_pause (st st' : App) (e : Event) :
  (pause_event st = true -> stop_event st = true) ->
  step st e = Some st' ->
  pause_event st' = true -> stop_event st' = true.
Proof.
  unfold step. destruct (enabled e st); [|discriminate].
  intros H E. injection E as <-. revert H.
  destruct st as [pe se q [p lp mk] d fs ta ln th ap lt lm pb pab sb dl].
  simpl pause_event at 1. simpl stop_event at 1.
  destruct e as [sf_read file_path| | | |event| |i frames|i finished];
    [| | | |destruct event as [xd yd b]| | |].
  all: exec; repeat (break_match; exec); simpl; intros H;
    first [exact H | intros _; reflexivity | intros H'; discriminate H'
          | intros H'; apply H; reflexivity ].
Qed.

(** The pause event is never set without the stop event: in every reachable
    state a set pause event means a set stop event, so the redraw loop never
    finds the session paused and not stopped. *)
Theorem pause_implies_stop (st : App) :
  reachable st -> pause_event st = true -> stop_event st = true.
Proof.
  intros [es Hrun]. revert Hrun.
  assert (G : forall es st0 st1,
             (pause_event st0 = true -> stop_event st0 = true) ->
             run st0 es = Some st1 ->
             pause_event st1 = true -> stop_event st1 = true).
  { clear. induction es as [|e es IH]; simpl; intros st0 st1 Hi Hr.
    - injection Hr as <-. exact Hi.
    - destruct (step st0 e) as [st2|] eqn:Hs; [|discriminate].
      exact (IH st2 st1 (step_keeps_stop_under_pause st0 st2 e Hi Hs) Hr). }
  intros Hrun. apply (G es init st); [|exact Hrun].
  simpl. intros H. discriminate H.
Qed.

Lemma pause_implies_stop_witness :
  reachable demo_paused
  /\ pause_event demo_paused = true
  /\ stop_event demo_paused = true.
Proof.
  assert (R : reachable demo_paused).
  { exists [OpenFile demo_files "tone.wav"; Tick;
            MouseClick (left_click 1); ClickPlay;
            Callback 0 2; Tick; Callback 0 1; ClickPause; Tick].
    vm_compute. reflexivity. }
  assert (Hp : pause_event demo_paused = true) by (vm_compute; reflexivity).
  split; [exact R|]. split; [exact Hp|].
  exact (pause_implies_stop demo_paused R Hp).
Defined.

Ltac loop_leaf t0 H0 :=
  simpl;
  repeat split;
  first [ discriminate
        | assumption
        | reflexivity
        | (do 3 eexists; split; [reflexivity|];
           split; [exact H0|reflexivity])
        | (intros; discriminate)
        | (intros; assumption)
        | (intros; lia)
        | (intros ? ?; discriminate)
        | idtac ].

Lemma step_loop_inv (st st' : App) (e : Event) :
  loop_inv st -> step st e = Some st' -> loop_inv st'.
Proof.
  intros [Hr Hcase] Hstep.
  split; [exact (step_relay_inv st st' e Hr Hstep)|].
  revert Hstep. unfold step.
  destruct (enabled e st) eqn:En; [|discriminate].
  intros H. injection H as <-.
  destruct Hr as [Hm Hlen].
  destruct e as [sf_read file_path| | | |event| |i frames|i finished].
  - (* OpenFile *)
    unfold handler, open_file.
    destruct (String.eqb file_path EmptyString) eqn:Hpath; cbn [negb];
      [exact Hcase|].
    apply String.eqb_neq in Hpath.
    destruct (sf_read file_path) as [|d fs] eqn:Hrd.
    + rewrite (proj1 (extract_audio_data_unreadable st sf_read file_path Hrd)).
      exact Hcase.
    + destruct (any d && negb (fs =? 0)) eqn:Hok.
      * apply andb_prop in Hok. destruct Hok as [Hany Hfs].
        apply negb_true_iff in Hfs. apply Z.eqb_neq in Hfs.
        assert (Hd : d <> []) by (intros E; subst d; discriminate Hany).
        destruct (extract_audio_data_loads st sf_read file_path d fs
                    Hpath Hrd Hany Hfs)
          as [st1 [E [A1 [A2 [_ [_ [_ [_ [_ [_ [_ [_ P1]]]]]]]]]]]].
        pose proof (load_reaches_update_plot st sf_read file_path d fs
                      Hpath Hrd Hany Hfs) as E'.
        destruct (update_plot_playing (load_prepared d fs st) 0%Q
                    (load_prepared_plotted d fs st Hd) (conj Hm Hlen)
                    eq_refl eq_refl)
          as [st2 [E2 [B1 _]]].
        assert (Est : st2 = st1) by congruence. subst st2.
        rewrite E. simpl. right.
        split; [exact P1|]. split; [congruence|]. split; [congruence|].
        intros _. rewrite B1. discriminate.
      * rewrite (extract_audio_data_rejected st sf_read file_path d fs
                   Hpath Hrd Hok).
        destruct Hcase as [[Hl Hb]|[[t0 [ts [l [Ht [H0 Hl]]]]] [_ [_ Hloop]]]].
        -- left. destruct st. simpl in *. auto.
        -- right. destruct st. simpl in *. subst.
           split; [do 3 eexists; split; [reflexivity|];
                   split; [exact H0|reflexivity]|].
           split; [discriminate|]. split; [discriminate|]. exact Hloop.
  - (* ClickPlay *)
    destruct Hcase as [[Hl [Hb _]]|[[t0 [ts [l [Ht [H0 Hl]]]]] [Hd [Hf Hloop]]]];
      [simpl in En; congruence|].
    right.
    destruct st as [pe se [mx it] [p lp mk] d fs ta ln th ap lt lm pb pab sb dl].
    simpl in Ht, Hl, Hd, Hf, Hloop, Hm, Hlen. subst ta ln mx.
    destruct d as [d|]; [|contradiction]. destruct fs as [fs|]; [|contradiction].
    destruct it as [|a [|b it]]; [| |simpl in Hlen; lia].
    all: exec; repeat (break_match; exec); loop_leaf t0 H0.
  - (* ClickPause *)
    destruct Hcase as [[Hl [_ [Hb _]]]|[[t0 [ts [l [Ht [H0 Hl]]]]] [Hd [Hf Hloop]]]];
      [simpl in En; congruence|].
    right.
    destruct st as [pe se [mx it] [p lp mk] d fs ta ln th ap lt lm pb pab sb dl].
    simpl in Ht, Hl, Hd, Hf, Hloop, Hm, Hlen. subst ta ln mx.
    destruct d as [d|]; [|contradiction]. destruct fs as [fs|]; [|contradiction].
    destruct it as [|a [|b it]]; [| |simpl in Hlen; lia].
    all: exec; repeat (break_match; exec); loop_leaf t0 H0.
  - (* ClickStop *)
    destruct Hcase as [[Hl [_ [_ Hb]]]|[[t0 [ts [l [Ht [H0 Hl]]]]] [Hd [Hf Hloop]]]];
      [simpl in En; congruence|].
    right.
    destruct st as [pe se [mx it] [p lp mk] d fs ta ln th ap lt lm pb pab sb dl].
    simpl in Ht, Hl, Hd, Hf, Hloop, Hm, Hlen. subst ta ln mx.
    destruct d as [d|]; [|contradiction]. destruct fs as [fs|]; [|contradiction].
    destruct it as [|a [|b it]]; [| |simpl in Hlen; lia].
    all: exec; change (first (t0 :: ts)) with (Some t0); exec;
      repeat (break_match; exec); loop_leaf t0 H0.
  - (* MouseClick *)
    destruct Hcase as [[Hl _]|[[t0 [ts [l [Ht [H0 Hl]]]]] [Hd [Hf Hloop]]]];
      [simpl in En; rewrite Hl in En; discriminate En|].
    right. destruct event as [xd yd b].
    destruct st as [pe se [mx it] [p lp mk] d fs ta ln th ap lt lm pb pab sb dl].
    simpl in Ht, Hl, Hd, Hf, Hloop, Hm, Hlen. subst ta ln mx.
    destruct d as [d|]; [|contradiction]. destruct fs as [fs|]; [|contradiction].
    exec; change (first (t0 :: ts)) with (Some t0); exec;
      repeat (break_match; exec); loop_leaf t0 H0.
  - (* Tick *)
    destruct Hcase as [[Hl [Hb1 [Hb2 Hb3]]]|[[t0 [ts [l [Ht [H0 Hl]]]]] [Hd [Hf Hloop]]]].
    + left.
      destruct st as [pe se q [p lp mk] d fs ta ln th ap lt lm pb pab sb dl].
      simpl in Hl, Hb1, Hb2, Hb3. subst ln pb pab sb.
      exec; repeat (break_match; exec); simpl; auto.
    + right.
      destruct st as [pe se [mx it] [p lp mk] d fs ta ln th ap lt lm pb pab sb dl].
      simpl in Ht, Hl, Hd, Hf, Hloop, Hm, Hlen. subst ta ln mx.
      destruct d as [d|]; [|contradiction]. destruct fs as [fs|]; [|contradiction].
      destruct it as [|a [|b it]]; [| |simpl in Hlen; lia].
      all: exec; change (first (t0 :: ts)) with (Some t0); exec;
        repeat (break_match; exec); loop_leaf t0 H0.
  - (* Callback *)
    destruct Hcase as [[Hl [Hb1 [Hb2 Hb3]]]|[[t0 [ts [l [Ht [H0 Hl]]]]] [Hd [Hf Hloop]]]].
    + left.
      destruct st as [pe se q [p lp mk] d fs ta ln th ap lt lm pb pab sb dl].
      simpl in Hl, Hb1, Hb2, Hb3. subst ln pb pab sb.
      exec; repeat (break_match; exec); simpl; auto.
    + right.
      destruct st as [pe se [mx it] [p lp mk] d fs ta ln th ap lt lm pb pab sb dl].
      simpl in Ht, Hl, Hd, Hf, Hloop, Hm, Hlen. subst ta ln mx.
      destruct d as [d|]; [|contradiction]. destruct fs as [fs|]; [|contradiction].
      destruct it as [|a [|b it]]; [| |simpl in Hlen; lia].
      all: exec; repeat (break_match; exec); loop_leaf t0 H0.
  - (* ThreadExit *)
    destruct Hcase as [[Hl [Hb1 [Hb2 Hb3]]]|[[t0 [ts [l [Ht [H0 Hl]]]]] [Hd [Hf Hloop]]]].
    + left.
      destruct st as [pe se q [p lp mk] d fs ta ln th ap lt lm pb pab sb dl].
      simpl in Hl, Hb1, Hb2, Hb3. subst ln pb pab sb.
      exec; repeat (break_match; exec); simpl; auto.
    + right.
      destruct st as [pe se [mx it] [p lp mk] d fs ta ln th ap lt lm pb pab sb dl].
      simpl in Ht, Hl, Hd, Hf, Hloop, Hm, Hlen. subst ta ln mx.
      destruct d as [d|]; [|contradiction]. destruct fs as [fs|]; [|contradiction].
      exec; repeat (break_match; exec); loop_leaf t0 H0.
Qed.

Lemma reachable_loop_inv (st : App) : reachable st -> loop_inv st.
Proof.
  intros [es Hrun].
  assert (G : forall es st0 st1,
             loop_inv st0 -> run st0 es = Some st1 -> loop_inv st1).
  { clear. induction es as [|e es IH]; simpl; intros st0 st1 Hi Hr.
    - injection Hr as <-. exact Hi.
    - destruct (step st0 e) as [st2|] eqn:Hs; [|discriminate].
      exact (IH st2 st1 (step_loop_inv st0 st2 e Hi Hs) Hr). }
  apply (G es init st); [|exact Hrun].
  split.
  - split; simpl; lia.
  - left. simpl. auto.
Qed.

(** The redraw loop does not die while the session plays: in every reachable
    state with a plot and a clear stop event a redraw is scheduled, and the
    window still has its data and its sample rate. *)
Theorem playing_has_redraw_scheduled (st : App) :
  reachable st ->
  lines st <> None ->
  stop_event st = false ->
  enabled Tick st = true
  /\ data st <> None
  /\ samplerate st <> None.
Proof.
  intros Hr Hl Hst.
  destruct (reachable_loop_inv st Hr) as [_ [[Hn _]|[_ [Hd [Hf Hloop]]]]];
    [contradiction|].
  split; [|split; assumption].
  simpl. specialize (Hloop Hst).
  destruct (after_pending st); [contradiction|reflexivity].
Qed.

Lemma playing_has_redraw_scheduled_witness :
  reachable demo_playing
  /\ lines demo_playing <> None
  /\ stop_event demo_playing = false
  /\ enabled Tick demo_playing = true
  /\ data demo_playing <> None
  /\ samplerate demo_playing <> None.
Proof.
  assert (R : reachable demo_playing).
  { exists [OpenFile demo_files "tone.wav"; Tick;
            MouseClick (left_click 1); ClickPlay;
            Callback 0 2; Tick; Callback 0 1].
    vm_compute. reflexivity. }
  assert (L : lines demo_playing <> None) by (vm_compute; discriminate).
  assert (S : stop_event demo_playing = false) by (vm_compute; reflexivity).
  split; [exact R|]. split; [exact L|]. split; [exact S|].
  exact (playing_has_redraw_scheduled demo_playing R L S).
Defined.

(** ** The samples written by the callback *)

Lemma len_skipn {A : Type} (l : list A) (n : Z) :
  0 <= n <= len l -> len (skipn (Z.to_nat n) l) = len l - n.
Proof. intros H. unfold len in *. rewrite length_skipn. lia. Qed.

(** With enough frames left, the buffer is the next [frames] rows of data. *)
Lemma outdata_full (w : AsyncPlay) (buf : ndarray) (frames : Z) :
  0 <= current_frame w ->
  0 <= frames <= len (t_data w) - current_frame w ->
  len buf = frames ->
  callback_outdata w buf frames
  = Some (firstn (Z.to_nat frames) (skipn (Z.to_nat (current_frame w)) (t_data w))).
Proof.
  intros Hc Hf Hb. unfold callback_outdata, slice.
  rewrite (Z.min_r _ _ (proj2 Hf)).
  replace (0 <=? current_frame w) with true by (symmetry; apply Z.leb_le; lia).
  replace (0 <=? frames) with true by (symmetry; apply Z.leb_le; lia).
  replace (len buf =? frames) with true by (symmetry; apply Z.eqb_eq; exact Hb).
  rewrite Z.ltb_irrefl. simpl andb. cbv iota.
  replace (current_frame w + frames - current_frame w) with frames by lia.
  rewrite (skipn_all2 buf) by (unfold len in Hb; lia).
  rewrite app_nil_r. reflexivity.
Qed.

(** With fewer frames left, the buffer is the rest of the data followed by
    zero rows. *)
Lemma outdata_short (w : AsyncPlay) (buf : ndarray) (frames : Z) :
  0 <= current_frame w <= len (t_data w) ->
  len (t_data w) - current_frame w < frames ->
  len buf = frames ->
  callback_outdata w buf frames
  = Some (skipn (Z.to_nat (current_frame w)) (t_data w)
          ++ map zero_frame
               (skipn (Z.to_nat (len (t_data w) - current_frame w)) buf)).
Proof.
  intros Hc Hf Hb. unfold callback_outdata, slice.
  rewrite Z.min_l by lia.
  replace (0 <=? current_frame w) with true by (symmetry; apply Z.leb_le; lia).
  replace (0 <=? len (t_data w) - current_frame w) with true
    by (symmetry; apply Z.leb_le; lia).
  replace (len buf =? frames) with true by (symmetry; apply Z.eqb_eq; exact Hb).
  replace (len (t_data w) - current_frame w <? frames) with true
    by (symmetry; apply Z.ltb_lt; lia).
  simpl andb. cbv iota.
  replace (current_frame w + (len (t_data w) - current_frame w) - current_frame w)
    with (len (t_data w) - current_frame w) by lia.
  pose proof (len_skipn (t_data w) (current_frame w) Hc) as Hlen.
  set (rest := skipn (Z.to_nat (current_frame w)) (t_data w)) in *.
  set (k := Z.to_nat (len (t_data w) - current_frame w)).
  assert (Hk : List.length rest = k).
  { unfold k. rewrite <- Hlen. unfold len. rewrite Nat2Z.id. reflexivity. }
  rewrite (firstn_all2 rest) by lia.
  rewrite firstn_app, skipn_app.
  rewrite (firstn_all2 rest) by lia.
  rewrite (skipn_all2 rest) by lia.
  rewrite Hk, Nat.sub_diag. simpl. rewrite app_nil_r. reflexivity.
Qed.

(** The callback always hands back a full buffer: for a cursor inside the
    data and a buffer of [frames] rows, the buffer written has [frames] rows
    again; its first rows are the data from the cursor on, as many as there
    are, and every row after them is a row of zeros. *)
Theorem callback_fills_buffer (w : AsyncPlay) (buf : ndarray) (frames : Z) :
  0 <= current_frame w <= len (t_data w) ->
  0 <= frames ->
  len buf = frames ->
  let chunksize := Z.min (len (t_data w) - current_frame w) frames in
  exists out,
    callback_outdata w buf frames = Some out
    /\ len out = frames
    /\ firstn (Z.to_nat chunksize) out
       = firstn (Z.to_nat chunksize) (skipn (Z.to_nat (current_frame w)) (t_data w))
    /\ len (firstn (Z.to_nat chunksize) out) = chunksize
    /\ Forall (Forall (fun x => x = 0%Q)) (skipn (Z.to_nat chunksize) out).
Proof.
  intros Hc Hf Hb. cbv zeta.
  pose proof (len_skipn (t_data w) (current_frame w) Hc) as Hlen.
  destruct (Z_lt_le_dec (len (t_data w) - current_frame w) frames) as [Hs|Hl].
  - rewrite (outdata_short w buf frames Hc Hs Hb).
    rewrite Z.min_l by lia.
    set (rest := skipn (Z.to_nat (current_frame w)) (t_data w)) in *.
    set (k := Z.to_nat (len (t_data w) - current_frame w)).
    assert (Hk : List.length rest = k).
    { unfold k. rewrite <- Hlen. unfold len. rewrite Nat2Z.id. reflexivity. }
    eexists. split; [reflexivity|]. split; [|split; [|split]].
    + unfold len in *. rewrite length_app, length_map, length_skipn. lia.
    + rewrite firstn_app, Hk, Nat.sub_diag. simpl. rewrite app_nil_r.
      reflexivity.
    + rewrite firstn_app, Hk, Nat.sub_diag. simpl. rewrite app_nil_r.
      rewrite (firstn_all2 rest) by lia. unfold len in *. rewrite Hk. lia.
    + rewrite skipn_app, (skipn_all2 rest) by lia.
      rewrite Hk, Nat.sub_diag. simpl.
      apply Forall_forall. intros row Hrow.
      apply in_map_iff in Hrow. destruct Hrow as [r [<- _]].
      apply Forall_forall. intros x Hx.
      apply in_map_iff in Hx. destruct Hx as [y [<- _]]. reflexivity.
  - rewrite (outdata_full w buf frames (proj1 Hc) (conj Hf Hl) Hb).
    rewrite Z.min_r by lia.
    set (rest := skipn (Z.to_nat (current_frame w)) (t_data w)) in *.
    assert (Hfl : List.length (firstn (Z.to_nat frames) rest) = Z.to_nat frames).
    { rewrite length_firstn. unfold len in *. lia. }
    eexists. split; [reflexivity|]. split; [|split; [|split]].
    + unfold len. rewrite Hfl. lia.
    + rewrite firstn_firstn, Nat.min_id. reflexivity.
    + rewrite firstn_firstn, Nat.min_id. unfold len. rewrite Hfl. lia.
    + rewrite skipn_all2 by lia. constructor.
Qed.

Lemma callback_fills_buffer_witness :
  0 <= 5 <= len demo_data
  /\ exists out,
       callback_outdata
         {| current_frame := 5; t_data := demo_data; t_fs := 2;
            curr_time := 0; alive := true; streaming := true |}
         [[1%Q]; [1%Q]; [1%Q]] 3 = Some out
       /\ len out = 3
       /\ firstn (Z.to_nat (Z.min (len demo_data - 5) 3)) out
          = firstn (Z.to_nat (Z.min (len demo_data - 5) 3))
                   (skipn (Z.to_nat 5) demo_data)
       /\ len (firstn (Z.to_nat (Z.min (len demo_data - 5) 3)) out)
          = Z.min (len demo_data - 5) 3
       /\ Forall (Forall (fun x => x = 0%Q))
                 (skipn (Z.to_nat (Z.min (len demo_data - 5) 3)) out).
Proof.
  assert (H : 0 <= 5 <= len demo_data) by (vm_compute; split; discriminate).
  split; [exact H|].
  refine (callback_fills_buffer
            {| current_frame := 5; t_data := demo_data; t_fs := 2;
               curr_time := 0; alive := true; streaming := true |}
            [[1%Q]; [1%Q]; [1%Q]] 3 H _ _).
  - discriminate.
  - reflexivity.
Defined.

(** ** Playing to the end of the buffer *)

Lemma stream_run_closed (fuel : nat) (i : nat) (frames : Z) (buf : ndarray)
      (st : App) (w : AsyncPlay) :
  nth_error (threads st) i = Some w ->
  streaming w = false ->
  stream_run fuel i frames buf st = ([], st).
Proof.
  intros Hw Hs. destruct fuel as [|fuel]; [reflexivity|].
  simpl. rewrite Hw, Hs, andb_false_r. reflexivity.
Qed.

(** From a cursor inside the data, the stream writes, buffer after buffer,
    exactly the rest of the data followed by zero rows up to the end of the
    last buffer, in [(len - cursor) / frames + 1] callbacks; it then sets
    the stop event and closes, with the thread still alive and its cursor
    at the last whole buffer. *)
Theorem stream_plays_rest_of_buffer (fuel : nat) :
  forall (st : App) (i : nat) (frames : Z) (buf : ndarray) (w : AsyncPlay),
    relay_inv st ->
    nth_error (threads st) i = Some w ->
    alive w = true ->
    streaming w = true ->
    0 <= current_frame w <= len (t_data w) ->
    0 < frames ->
    t_fs w <> 0 ->
    len buf = frames ->
    (len (t_data w) - current_frame w) / frames < Z.of_nat fuel ->
    exists outs st' w',
      stream_run fuel i frames buf st = (outs, st')
      /\ len outs = (len (t_data w) - current_frame w) / frames + 1
      /\ List.concat outs
         = skipn (Z.to_nat (current_frame w)) (t_data w)
           ++ map zero_frame
                (skipn (Z.to_nat ((len (t_data w) - current_frame w) mod frames))
                       buf)
      /\ stop_event st' = true
      /\ nth_error (threads st') i = Some w'
      /\ streaming w' = false
      /\ alive w' = true
      /\ current_frame w'
         = len (t_data w) - (len (t_data w) - current_frame w) mod frames.
Proof.
  induction fuel as [|fuel IH];
    intros st i frames buf w Hr Hw Ha Hs Hc Hf Hfs Hb Hfuel.
  - exfalso.
    assert (0 <= (len (t_data w) - current_frame w) / frames)
      by (apply Z.div_pos; lia).
    lia.
  - simpl stream_run. rewrite Hw, Ha, Hs. cbn [andb].
    destruct (Z_lt_le_dec (len (t_data w) - current_frame w) frames) as [Hlt|Hge].
    + (* the last buffer *)
      rewrite (outdata_short w buf frames Hc Hlt Hb).
      rewrite (exhausted_callback_state st i frames w Hw Hlt). cbn [state_of].
      set (st1 := set_stop_event true
                    (update_thread i (with_status w (alive w) false) st)).
      assert (Hw1 : nth_error (threads st1) i
                    = Some (with_status w (alive w) false)).
      { destruct st. simpl. simpl in Hw. apply (nth_error_set_nth _ i _ w Hw). }
      rewrite (stream_run_closed fuel i frames buf st1 _ Hw1 eq_refl).
      rewrite Z.div_small by lia. rewrite Z.mod_small by lia.
      eexists. eexists. eexists. split; [reflexivity|].
      split; [reflexivity|].
      split; [simpl; rewrite app_nil_r; reflexivity|].
      split; [destruct st; reflexivity|].
      split; [exact Hw1|]. split; [reflexivity|]. split; [exact Ha|].
      simpl. lia.
    + (* a whole buffer, and the rest *)
      rewrite (outdata_full w buf frames (proj1 Hc) (conj (Z.lt_le_incl _ _ Hf) Hge) Hb).
      rewrite (callback_publishes_state st i frames w Hr Hw Hge Hfs).
      cbn [state_of].
      set (t := (inject_Z (current_frame w) / inject_Z (t_fs w))%Q).
      set (w1 := with_frame (with_time w t) (current_frame w + frames)).
      set (st1 := update_thread i w1
                    (update_thread i (with_time w t)
                       (set_queue (LifoQueue.mk 1 [t]) st))).
      assert (Hr1 : relay_inv st1).
      { destruct st. split; [reflexivity|simpl; lia]. }
      assert (Hw1 : nth_error (threads st1) i = Some w1).
      { destruct st. simpl. simpl in Hw.
        eapply nth_error_set_nth. apply (nth_error_set_nth _ i _ w Hw). }
      assert (Hdiv : (len (t_data w) - (current_frame w + frames)) / frames
                     = (len (t_data w) - current_frame w) / frames - 1).
      { replace (len (t_data w) - (current_frame w + frames))
          with (len (t_data w) - current_frame w + (-1) * frames) by lia.
        rewrite Z.div_add by lia. lia. }
      assert (Hmod : (len (t_data w) - (current_frame w + frames)) mod frames
                     = (len (t_data w) - current_frame w) mod frames).
      { replace (len (t_data w) - (current_frame w + frames))
          with (len (t_data w) - current_frame w + (-1) * frames) by lia.
        apply Z.mod_add. lia. }
      destruct (IH st1 i frames buf w1 Hr1 Hw1 Ha Hs) as
          [outs [st' [w' [E [Hlen [Hcat [Hst [Hw' [Hs' [Ha' Hcf]]]]]]]]]].
      * simpl. lia.
      * exact Hf.
      * exact Hfs.
      * exact Hb.
      * change (t_data w1) with (t_data w).
        change (current_frame w1) with (current_frame w + frames).
        rewrite Hdiv. lia.
      * change (t_data w1) with (t_data w) in *.
        change (current_frame w1) with (current_frame w + frames) in *.
        rewrite Hdiv in Hlen. rewrite Hmod in Hcat, Hcf.
        rewrite E.
        exists (firstn (Z.to_nat frames)
                       (skipn (Z.to_nat (current_frame w)) (t_data w)) :: outs),
               st', w'.
        split; [reflexivity|].
        split; [unfold len in *; simpl List.length; lia|].
        split.
        { simpl List.concat. rewrite Hcat.
          rewrite Z2Nat.inj_add by lia.
          rewrite (Nat.add_comm (Z.to_nat (current_frame w))).
          rewrite <- skipn_skipn.
          rewrite app_assoc. rewrite firstn_skipn. reflexivity. }
        split; [exact Hst|]. split; [exact Hw'|].
        split; [exact Hs'|]. split; [exact Ha'|]. exact Hcf.
Qed.

Lemma stream_plays_rest_of_buffer_witness :
  relay_inv demo_playing
  /\ nth_error (threads demo_playing) 0
     = Some {| current_frame := 5; t_data := demo_data; t_fs := 2;
               curr_time := (inject_Z 4 / inject_Z 2)%Q;
               alive := true; streaming := true |}
  /\ exists outs st' w',
       stream_run 3 0 1 [[1%Q]] demo_playing = (outs, st')
       /\ len outs = (len demo_data - 5) / 1 + 1
       /\ List.concat outs
          = skipn (Z.to_nat 5) demo_data
            ++ map zero_frame
                 (skipn (Z.to_nat ((len demo_data - 5) mod 1)) [[1%Q]])
       /\ stop_event st' = true
       /\ nth_error (threads st') 0 = Some w'
       /\ streaming w' = false
       /\ alive w' = true
       /\ current_frame w' = len demo_data - (len demo_data - 5) mod 1.
Proof.
  assert (R : relay_inv demo_playing).
  { split; [vm_compute; reflexivity|]. vm_compute. apply le_n. }
  assert (Hw : nth_error (threads demo_playing) 0
               = Some {| current_frame := 5; t_data := demo_data; t_fs := 2;
                         curr_time := (inject_Z 4 / inject_Z 2)%Q;
                         alive := true; streaming := true |})
    by (vm_compute; reflexivity).
  split; [exact R|]. split; [exact Hw|].
  refine (stream_plays_rest_of_buffer 3 demo_playing 0 1 [[1%Q]] _ R Hw
            _ _ _ _ _ _ _).
  - reflexivity.
  - reflexivity.
  - vm_compute. split; discriminate.
  - reflexivity.
  - discriminate.
  - reflexivity.
  - vm_compute. reflexivity.
Defined.

(** ** No handler raises once a file is loaded *)

Lemma ui_handler_returns (st : App) (e : Event) :
  relay_inv st ->
  plotted st ->
  data st <> None ->
  samplerate st <> None ->
  ui_event e = true ->
  exists st', handler e st = Ok tt st'.
Proof.
  intros [Hm Hlen] [t0 [ts [l [Ht [H0 Hl]]]]] Hd Hf He.
  destruct (last_item_cons t0 ts) as [hi Hhi].
  destruct st as [pe se [mx it] [p lp mk] d fs ta ln th ap lt lm pb pab sb dl].
  simpl in Ht, Hl, Hd, Hf, Hm, Hlen. subst ta ln mx.
  destruct d as [d|]; [|contradiction]. destruct fs as [fs|]; [|contradiction].
  destruct it as [|a [|b it]]; [| |simpl in Hlen; lia].
  all: destruct e as [sf_read file_path| | | |event| |i frames|i finished];
    try discriminate He; try destruct event as [xd yd b].
  all: exec; repeat (progress change (first (t0 :: ts)) with (Some t0); exec);
    rewrite ?Hhi; exec.
  all: repeat (break_match; exec;
               repeat (progress change (first (t0 :: ts)) with (Some t0); exec);
               rewrite ?Hhi; exec).
  all: eexists; reflexivity.
Qed.

(** In every reachable state with a plot, each of the three button
    handlers, the click handler (for any event) and the scheduled redraw
    returns without raising. *)
Theorem loaded_handlers_return (st : App) (e : Event) :
  reachable st ->
  lines st <> None ->
  ui_event e = true ->
  exists st', handler e st = Ok tt st'.
Proof.
  intros Hr Hl He.
  destruct (reachable_loop_inv st Hr) as [Hrel [[Hn _]|[Hp [Hd [Hf _]]]]];
    [contradiction|].
  exact (ui_handler_returns st e Hrel Hp Hd Hf He).
Qed.

Lemma loaded_handlers_return_witness :
  reachable demo_playing
  /\ lines demo_playing <> None
  /\ exists st', handler (MouseClick (right_click 5)) demo_playing = Ok tt st'.
Proof.
  assert (R : reachable demo_playing).
  { exists [OpenFile demo_files "tone.wav"; Tick;
            MouseClick (left_click 1); ClickPlay;
            Callback 0 2; Tick; Callback 0 1].
    vm_compute. reflexivity. }
  assert (L : lines demo_playing <> None) by (vm_compute; discriminate).
  split; [exact R|]. split; [exact L|].
  exact (loaded_handlers_return demo_playing (MouseClick (right_click 5))
           R L eq_refl).
Defined.

(** ** Seeking while a redraw is pending *)

(** A left click sets the last position to the clicked time, but the redraw
    that was already scheduled overwrites it: after that redraw the last
    position is the current position again, the cursor line is drawn there,
    and the session is paused at it. *)
Theorem seek_is_undone_by_pending_redraw (st : App) (x y lo hi : Q)
        (t : list Q) (l : Q * option Q) :
  plotted st ->
  time_axis st = Some t -> first t = Some lo -> last_item t = Some hi ->
  lines st = Some l ->
  (lo <= x <= hi)%Q ->
  exists st1 st2,
    on_mouse_click {| xdata := Some x; ydata := Some y; button := LEFT |} st
    = Ok tt st1
    /\ last_pos (sound st1) = x
    /\ tick st1 = Ok tt st2
    /\ last_pos (sound st2) = pos (sound st)
    /\ pos (sound st2) = pos (sound st)
    /\ lines st2 = Some (pos (sound st), marker_pos (sound st))
    /\ pause_event st2 = true
    /\ stop_event st2 = true.
Proof.
  intros Hp Ht Hlo Hhi Hl Hx.
  pose proof (left_click_state st x y lo hi t l Ht Hlo Hhi Hl Hx) as E1.
  match type of E1 with _ = Ok tt ?s => set (st1 := s) in * end.
  assert (P1 : plotted st1).
  { destruct Hp as [t0 [ts [l0 [A [B C]]]]].
    exists t0, ts, (x, marker_pos (sound st)).
    split; [exact A|]. split; [exact B|reflexivity]. }
  destruct (update_plot_stopped
              (set_after_pending (Nat.pred (after_pending st1)) st1)
              (pos (sound st1)) P1 eq_refl)
    as [st2 [E2 [_ [B2 [B3 [_ [_ [_ [B7 [_ [B9 [B10 _]]]]]]]]]]]].
  destruct (B9 eq_refl) as [C1 C2].
  exists st1, st2. split; [exact E1|]. split; [reflexivity|].
  split; [rewrite tick_unfold; exact E2|].
  split; [exact C2|]. split; [exact C1|].
  split; [rewrite B10, C1, B7; reflexivity|].
  split; [exact B3|exact B2].
Qed.

Lemma seek_is_undone_by_pending_redraw_witness :
  plotted demo_playing
  /\ enabled Tick demo_playing = true
  /\ pos (sound demo_playing) = (2 # 2)%Q
  /\ (0 # 12 <= 2 # 5 <= 30 # 12)%Q
  /\ exists st1 st2,
       on_mouse_click (left_click (2 # 5)) demo_playing = Ok tt st1
       /\ last_pos (sound st1) = (2 # 5)%Q
       /\ tick st1 = Ok tt st2
       /\ last_pos (sound st2) = pos (sound demo_playing)
       /\ pos (sound st2) = pos (sound demo_playing)
       /\ lines st2
          = Some (pos (sound demo_playing), marker_pos (sound demo_playing))
       /\ pause_event st2 = true
       /\ stop_event st2 = true.
Proof.
  assert (P : plotted demo_playing).
  { eexists. eexists. eexists.
    split; [vm_compute; reflexivity|].
    split; [reflexivity|vm_compute; reflexivity]. }
  assert (Hr : (0 # 12 <= 2 # 5 <= 30 # 12)%Q) by (split; discriminate).
  split; [exact P|]. split; [vm_compute; reflexivity|].
  split; [vm_compute; reflexivity|]. split; [exact Hr|].
  refine (seek_is_undone_by_pending_redraw demo_playing (2 # 5) 0
            (0 # 12) (30 # 12) _ (2 # 2, None) P _ _ _ _ Hr).
  - vm_compute. reflexivity.
  - vm_compute. reflexivity.
  - vm_compute. reflexivity.
  - vm_compute. reflexivity.
Defined.
